(** * The epoch overlay element (ext/pango/gstepochoverlay.c)

    A shallow embedding of the element's four entry points
    ([gst_epoch_overlay_get_text], [gst_epoch_overlay_class_init],
    [gst_epoch_overlay_init] and the two property handlers) together with
    the small part of libc, GLib and Pango they call, and the properties of
    the element's text contract. *)

From Stdlib Require Import ZArith Lia Ascii String List.
From stdpp Require Import base option gmap.
Import ListNotations.

Local Open Scope Z_scope.

(** ** Machine integers *)

(** [unsigned long long] is 64 bits wide; a conversion to it and every
    operation on it reduce modulo [2^64] (C11 6.2.5p9, 6.3.1.3p2). *)
Definition ULLONG_MODULUS : Z := 2 ^ 64.

Definition to_ull (z : Z) : Z := z mod ULLONG_MODULUS.
Definition ull_mul (a b : Z) : Z := (a * b) mod ULLONG_MODULUS.
Definition ull_add (a b : Z) : Z := (a + b) mod ULLONG_MODULUS.

(** ** libc: [struct timeval], [gettimeofday], [sprintf] *)

(** [tv_sec] is a [time_t] and [tv_usec] a [suseconds_t]: signed integers of
    the platform's width, kept as their mathematical value. *)
Record timeval : Type := { tv_sec : Z; tv_usec : Z }.

(** One answer of the wall clock: the [int] that [gettimeofday] returns and
    what [tp] holds afterwards (on failure its contents are indeterminate:
    whatever [clock_tp] is). *)
Record Clock : Type := { clock_ret : Z; clock_tp : timeval }.

Definition gettimeofday (c : Clock) : Z * timeval := (clock_ret c, clock_tp c).

(** The character ['0' + d]. *)
Definition digit_char (d : Z) : ascii := ascii_of_N (48 + Z.to_N d).

(** The conversion loop of an unsigned decimal directive: digits are produced
    from the least significant one and stored right to left,
    [do { *--p = '0' + n % 10; n /= 10; } while (n != 0);]. *)
Fixpoint utoa_loop (fuel : nat) (n : Z) (acc : string) : string :=
  match fuel with
  | O => acc
  | S fuel' =>
      let acc' := String (digit_char (n mod 10)) acc in
      if n / 10 =? 0 then acc' else utoa_loop fuel' (n / 10) acc'
  end.

(** A 64-bit value has at most 20 decimal digits. *)
Definition PRIu64_MAX_DIGITS : nat := 20.

(** The text [sprintf] produces for the format ["%" PRIu64]. *)
Definition format_PRIu64 (n : Z) : string := utoa_loop PRIu64_MAX_DIGITS n EmptyString.

(** [gchar buf[256]]. *)
Definition BUF_SIZE : Z := 256.

(** ** Decimal numerals, as the regular expression [^[0-9]+$] reads them *)

Definition is_digit (c : ascii) : bool :=
  let n := Z.of_N (N_of_ascii c) in (48 <=? n) && (n <=? 57).

Fixpoint all_digits (s : string) : bool :=
  match s with
  | EmptyString => true
  | String c t => is_digit c && all_digits t
  end.

(** [^[0-9]+$]: one digit or more, and nothing else. *)
Definition matches_digits_regex (s : string) : bool :=
  match s with
  | EmptyString => false
  | String _ _ => all_digits s
  end.

(** No leading zero, except for the numeral ["0"] itself. *)
Definition no_leading_zero (s : string) : bool :=
  match s with
  | String "0"%char (String _ _) => false
  | _ => true
  end.

(** The digit a character stands for: its code minus that of ['0']. *)
Definition digit_of (c : ascii) : Z := Z.of_N (N_of_ascii c) - 48.

(** The number a digit string denotes, most significant digit first. *)
Fixpoint decimal_value_from (acc : Z) (s : string) : Z :=
  match s with
  | EmptyString => acc
  | String c t => decimal_value_from (10 * acc + digit_of c) t
  end.

Definition decimal_value (s : string) : Z := decimal_value_from 0 s.

(** [s] is the decimal numeral of [n]. *)
Definition decimal_numeral_of (n : Z) (s : string) : Prop :=
  matches_digits_regex s = true /\ no_leading_zero s = true /\ decimal_value s = n.

(** ** Execution model

    Every entry point of the element runs against the object its pointer
    argument designates, calls out to libc, GLib and Pango, and either
    returns or does not.  A run is a function of the state [S] of that
    object; it leaves a trace of the calls that matter to another thread or
    to the user: lock operations, changes of the shared rendering context,
    and log messages. *)

Inductive fault : Type :=
| Blocked         (* g_mutex_lock on a mutex that is held: the call does not return *)
| UnlockNotHeld   (* g_mutex_unlock on a mutex that is not held: undefined *)
| Aborted         (* a log message of a fatal level: abort () *)
| BufferOverflow. (* sprintf past the end of its buffer: undefined *)

Inductive MutexId : Type :=
| PangoLock    (* GstBaseTextOverlayClass.pango_lock *)
| ObjectLock.  (* GstObject.lock, the one GST_OBJECT_LOCK takes *)

Inductive GLogLevelFlags : Type :=
| G_LOG_LEVEL_ERROR
| G_LOG_LEVEL_CRITICAL
| G_LOG_LEVEL_WARNING
| G_LOG_LEVEL_MESSAGE
| G_LOG_LEVEL_INFO
| G_LOG_LEVEL_DEBUG.

(** The attributes of a [PangoContext] this element sets. *)
Inductive ContextAttribute : Type :=
| AttrLanguage
| AttrBaseDir
| AttrFontDescription.

Section Execution.
(** [GParamSpec] is GLib's; only its identity matters here. *)
Context {GParamSpec : Type}.

(** What [G_OBJECT_WARN_INVALID_PROPERTY_ID (object, prop_id, pspec)]
    reports. *)
Inductive LogMessage : Type :=
| InvalidPropertyId (prop_id : Z) (pspec : GParamSpec).

Inductive Event : Type :=
| EvMutexLock (m : MutexId)
| EvMutexUnlock (m : MutexId)
| EvContextSet (a : ContextAttribute)
| EvLog (level : GLogLevelFlags) (msg : LogMessage).

Inductive outcome (S A : Type) : Type :=
| Returns (a : A) (s : S) (tr : list Event)
| Faults (f : fault) (s : S) (tr : list Event).

Definition prog (S A : Type) : Type := S -> outcome S A.
End Execution.

Arguments LogMessage : clear implicits.
Arguments Event : clear implicits.
Arguments outcome : clear implicits.
Arguments prog : clear implicits.
Arguments Returns {GParamSpec S A} a s tr.
Arguments Faults {GParamSpec S A} f s tr.

Section Monad.
Context {GParamSpec S : Type}.

Definition returning {A : Type} (a : A) : prog GParamSpec S A := fun s => Returns a s [].

Definition and_then {A B : Type} (k : A -> prog GParamSpec S B) (m : prog GParamSpec S A) :
  prog GParamSpec S B :=
  fun s =>
    match m s with
    | Returns a s' tr =>
        match k a s' with
        | Returns b s'' tr' => Returns b s'' (tr ++ tr')
        | Faults f s'' tr' => Faults f s'' (tr ++ tr')
        end
    | Faults f s' tr => Faults f s' tr
    end.

Definition get : prog GParamSpec S S := fun s => Returns s s [].
Definition modify (f : S -> S) : prog GParamSpec S unit := fun s => Returns tt (f s) [].
Definition emit (e : Event GParamSpec) : prog GParamSpec S unit := fun s => Returns tt s [e].
Definition raise {A : Type} (f : fault) : prog GParamSpec S A := fun s => Faults f s [].
End Monad.

#[global] Instance prog_mret {GParamSpec S : Type} : MRet (prog GParamSpec S) := @returning GParamSpec S.
#[global] Instance prog_mbind {GParamSpec S : Type} : MBind (prog GParamSpec S) := @and_then GParamSpec S.

(** ** GLib: mutexes, the log, [g_strdup] *)

Inductive GMutex : Type := MutexFree | MutexHeld.

Definition TRUE : bool := true.

(** A pointer to a field of the state: how to read it and how to store
    through it. *)
Record fieldptr (S A : Type) : Type := { load : S -> A; store : A -> S -> S }.
Arguments load {S A} _ _.
Arguments store {S A} _ _ _.

Section GLib.
Context {GParamSpec S : Type}.

(** [g_mutex_lock]: a [GMutex] is not recursive; on a held mutex the call
    waits, and in a run of one thread it waits for ever. *)
Definition g_mutex_lock (id : MutexId) (m : fieldptr S GMutex) : prog GParamSpec S unit :=
  s ← get;
  match load m s with
  | MutexHeld => raise Blocked
  | MutexFree => modify (store m MutexHeld);; emit (EvMutexLock id)
  end.

Definition g_mutex_unlock (id : MutexId) (m : fieldptr S GMutex) : prog GParamSpec S unit :=
  s ← get;
  match load m s with
  | MutexFree => raise UnlockNotHeld
  | MutexHeld => modify (store m MutexFree);; emit (EvMutexUnlock id)
  end.

(** Of GLib's log levels, [G_LOG_LEVEL_ERROR] is the fatal one. *)
Definition log_level_is_fatal (level : GLogLevelFlags) : bool :=
  match level with
  | G_LOG_LEVEL_ERROR => true
  | _ => false
  end.

Definition g_log (level : GLogLevelFlags) (msg : LogMessage GParamSpec) :
  prog GParamSpec S unit :=
  emit (EvLog level msg);;
  if log_level_is_fatal level then raise Aborted else mret tt.

Definition g_warning (msg : LogMessage GParamSpec) : prog GParamSpec S unit :=
  g_log G_LOG_LEVEL_WARNING msg.

(** [sprintf (buf, ...)] with [gchar buf[256]]: the text and its
    terminating NUL must fit. *)
Definition sprintf (text : string) : prog GParamSpec S string :=
  if Z.of_nat (String.length text) <? BUF_SIZE then mret text else raise BufferOverflow.
End GLib.

(** Addresses of heap blocks; [NULL] is address 0. *)
Definition NULL : N := 0%N.

(** [g_malloc] gives a block that is not [NULL] (it aborts rather than
    return [NULL]) and that no live block occupies.  Which address it gives
    is up to the allocator. *)
Class GAllocator : Type := {
  g_malloc_addr : gmap N string -> N;
  g_malloc_not_null : forall heap, g_malloc_addr heap <> NULL;
  g_malloc_fresh : forall heap, heap !! g_malloc_addr heap = None
}.

(** An allocator to run the element with: the least address not in use. *)
Definition first_fit (heap : gmap N string) : N := fresh ({[NULL]} ∪ dom heap).

#[global, refine] Instance first_fit_allocator : GAllocator :=
  {| g_malloc_addr := first_fit |}.
Proof.
  - intros heap E.
    apply (is_fresh ({[NULL]} ∪ dom heap)). fold (first_fit heap).
    rewrite E. set_solver.
  - intros heap. apply not_elem_of_dom.
    intros Hin. apply (is_fresh ({[NULL]} ∪ dom heap)). fold (first_fit heap).
    set_solver.
Defined.

Section GStrdup.
Context {GParamSpec S : Type} {allocator : GAllocator}.
(** Where the heap lives in the state. *)
Variable heap : fieldptr S (gmap N string).

(** [g_strdup (str)] for a [str] that is not [NULL]: a new block holding
    a copy of the text. *)
Definition g_strdup (str : string) : prog GParamSpec S N :=
  s ← get;
  let p := g_malloc_addr (load heap s) in
  modify (store heap (<[p := str]> (load heap s)));;
  mret p.
End GStrdup.

(** ** Pango: languages, directions, font descriptions, contexts *)

(** A language tag, as [pango_language_from_string] makes it from its
    argument. *)
Inductive PangoLanguage : Type :=
| pango_language_from_string (tag : string).

Inductive PangoDirection : Type :=
| PANGO_DIRECTION_LTR
| PANGO_DIRECTION_RTL
| PANGO_DIRECTION_TTB_LTR
| PANGO_DIRECTION_TTB_RTL
| PANGO_DIRECTION_WEAK_LTR
| PANGO_DIRECTION_WEAK_RTL
| PANGO_DIRECTION_NEUTRAL.

Inductive PangoStyle : Type :=
| PANGO_STYLE_NORMAL
| PANGO_STYLE_OBLIQUE
| PANGO_STYLE_ITALIC.

Inductive PangoVariant : Type :=
| PANGO_VARIANT_NORMAL
| PANGO_VARIANT_SMALL_CAPS.

Inductive PangoStretch : Type :=
| PANGO_STRETCH_ULTRA_CONDENSED
| PANGO_STRETCH_EXTRA_CONDENSED
| PANGO_STRETCH_CONDENSED
| PANGO_STRETCH_SEMI_CONDENSED
| PANGO_STRETCH_NORMAL
| PANGO_STRETCH_SEMI_EXPANDED
| PANGO_STRETCH_EXPANDED
| PANGO_STRETCH_EXTRA_EXPANDED
| PANGO_STRETCH_ULTRA_EXPANDED.

(** A [PangoWeight] is a number on the OpenType scale; normal is 400. *)
Definition PANGO_WEIGHT_NORMAL : Z := 400.

(** Pango units per device unit or point. *)
Definition PANGO_SCALE : Z := 1024.

(** A font description; a field that was never set is [None]. *)
Record PangoFontDescription : Type := {
  fd_family : option string;
  fd_style : option PangoStyle;
  fd_variant : option PangoVariant;
  fd_weight : option Z;
  fd_stretch : option PangoStretch;
  fd_size : option Z
}.

(** "Creates a new font description structure with all fields unset." *)
Definition pango_font_description_new : PangoFontDescription :=
  {| fd_family := None; fd_style := None; fd_variant := None;
     fd_weight := None; fd_stretch := None; fd_size := None |}.

Definition pango_font_description_set_family_static
    (desc : PangoFontDescription) (family : string) : PangoFontDescription :=
  {| fd_family := Some family; fd_style := fd_style desc; fd_variant := fd_variant desc;
     fd_weight := fd_weight desc; fd_stretch := fd_stretch desc; fd_size := fd_size desc |}.

Definition pango_font_description_set_style
    (desc : PangoFontDescription) (style : PangoStyle) : PangoFontDescription :=
  {| fd_family := fd_family desc; fd_style := Some style; fd_variant := fd_variant desc;
     fd_weight := fd_weight desc; fd_stretch := fd_stretch desc; fd_size := fd_size desc |}.

Definition pango_font_description_set_variant
    (desc : PangoFontDescription) (variant : PangoVariant) : PangoFontDescription :=
  {| fd_family := fd_family desc; fd_style := fd_style desc; fd_variant := Some variant;
     fd_weight := fd_weight desc; fd_stretch := fd_stretch desc; fd_size := fd_size desc |}.

Definition pango_font_description_set_weight
    (desc : PangoFontDescription) (weight : Z) : PangoFontDescription :=
  {| fd_family := fd_family desc; fd_style := fd_style desc; fd_variant := fd_variant desc;
     fd_weight := Some weight; fd_stretch := fd_stretch desc; fd_size := fd_size desc |}.

Definition pango_font_description_set_stretch
    (desc : PangoFontDescription) (stretch : PangoStretch) : PangoFontDescription :=
  {| fd_family := fd_family desc; fd_style := fd_style desc; fd_variant := fd_variant desc;
     fd_weight := fd_weight desc; fd_stretch := Some stretch; fd_size := fd_size desc |}.

Definition pango_font_description_set_size
    (desc : PangoFontDescription) (size : Z) : PangoFontDescription :=
  {| fd_family := fd_family desc; fd_style := fd_style desc; fd_variant := fd_variant desc;
     fd_weight := fd_weight desc; fd_stretch := fd_stretch desc; fd_size := Some size |}.

(** A [PangoContext]: the three attributes this element sets, and the rest
    of it ([ContextRest]: font map, gravity, matrix, ...). *)
Record PangoContext (ContextRest : Type) : Type := {
  ctx_language : PangoLanguage;
  ctx_base_dir : PangoDirection;
  ctx_font_description : PangoFontDescription;
  ctx_rest : ContextRest
}.
Arguments ctx_language {ContextRest} _.
Arguments ctx_base_dir {ContextRest} _.
Arguments ctx_font_description {ContextRest} _.
Arguments ctx_rest {ContextRest} _.

Section PangoContextSetters.
Context {GParamSpec S ContextRest : Type}.
(** Where the context lives in the state ([PangoContext *context]). *)
Variable context : fieldptr S (PangoContext ContextRest).

Definition pango_context_set_language (language : PangoLanguage) : prog GParamSpec S unit :=
  modify (fun s =>
    let c := load context s in
    store context {| ctx_language := language; ctx_base_dir := ctx_base_dir c;
                     ctx_font_description := ctx_font_description c;
                     ctx_rest := ctx_rest c |} s);;
  emit (EvContextSet AttrLanguage).

Definition pango_context_set_base_dir (direction : PangoDirection) : prog GParamSpec S unit :=
  modify (fun s =>
    let c := load context s in
    store context {| ctx_language := ctx_language c; ctx_base_dir := direction;
                     ctx_font_description := ctx_font_description c;
                     ctx_rest := ctx_rest c |} s);;
  emit (EvContextSet AttrBaseDir).

(** The context keeps a copy of [desc]. *)
Definition pango_context_set_font_description (desc : PangoFontDescription) :
  prog GParamSpec S unit :=
  modify (fun s =>
    let c := load context s in
    store context {| ctx_language := ctx_language c; ctx_base_dir := ctx_base_dir c;
                     ctx_font_description := desc;
                     ctx_rest := ctx_rest c |} s);;
  emit (EvContextSet AttrFontDescription).

(** Releases the caller's description; the context's copy stays. *)
Definition pango_font_description_free (desc : PangoFontDescription) : prog GParamSpec S unit :=
  mret tt.
End PangoContextSetters.

(** ** The base text overlay (gstbasetextoverlay.h) and the element's types *)

(** The functions a class structure's slots can point to: the four of this
    file, or whatever the parent class had put there. *)
Inductive funcptr : Type :=
| FN_gst_epoch_overlay_finalize
| FN_gst_epoch_overlay_set_property
| FN_gst_epoch_overlay_get_property
| FN_gst_epoch_overlay_get_text
| FN_inherited (slot : N).

(** What [gst_element_class_set_static_metadata] records. *)
Record ElementMetadata : Type := {
  md_longname : string;
  md_classification : string;
  md_description : string;
  md_author : string
}.

Section BaseTextOverlay.
Context {GstBaseTextOverlayVAlign GstBaseTextOverlayHAlign OverlayRest ContextRest : Type}.

(** Modelled from the spec: the instance structure [GstBaseTextOverlay] of
    gstbasetextoverlay.h, which is not among the sources.  It has the
    "shared mutable fields for alignment and a re-render flag this core may
    set" ([valign], [halign], [need_render]), the lock of its [GstObject]
    ancestor that [GST_OBJECT_LOCK] takes, and every other inherited
    property value ([overlay_rest]). *)
Record GstBaseTextOverlay : Type := {
  object_lock : GMutex;
  valign : GstBaseTextOverlayVAlign;
  halign : GstBaseTextOverlayHAlign;
  need_render : bool;
  overlay_rest : OverlayRest
}.

(** [struct _GstEpochOverlay { GstBaseTextOverlay textoverlay; }]. *)
Record GstEpochOverlay : Type := { textoverlay : GstBaseTextOverlay }.

(** Modelled from the spec: the class structure [GstBaseTextOverlayClass] of
    gstbasetextoverlay.h, which is not among the sources, with the slots of
    its [GObjectClass] and [GstElementClass] ancestors that class
    initialization writes: the shared rendering context and "a host-owned
    mutual-exclusion lock" guarding it, and the extension point
    [get_text]. *)
Record GstBaseTextOverlayClass : Type := {
  finalize : funcptr;
  set_property : funcptr;
  get_property : funcptr;
  metadata : option ElementMetadata;
  get_text : funcptr;
  pango_lock : GMutex;
  pango_context : PangoContext ContextRest
}.

(** [struct _GstEpochOverlayClass { GstBaseTextOverlayClass parent_class; }]. *)
Record GstEpochOverlayClass : Type := { parent_class : GstBaseTextOverlayClass }.
End BaseTextOverlay.

Arguments GstBaseTextOverlay : clear implicits.
Arguments GstEpochOverlay : clear implicits.
Arguments GstBaseTextOverlayClass : clear implicits.
Arguments GstEpochOverlayClass : clear implicits.

(** ** The element: gstepochoverlay.c *)

Section EpochOverlay.
Context {GstBuffer GValue GParamSpec : Type}.
Context {GstBaseTextOverlayVAlign GstBaseTextOverlayHAlign OverlayRest ContextRest : Type}.
(** The two alignment constants of gstbasetextoverlay.h the element uses. *)
Variable GST_BASE_TEXT_OVERLAY_VALIGN_TOP : GstBaseTextOverlayVAlign.
Variable GST_BASE_TEXT_OVERLAY_HALIGN_LEFT : GstBaseTextOverlayHAlign.
Context {allocator : GAllocator}.

Let Overlay : Type :=
  GstBaseTextOverlay GstBaseTextOverlayVAlign GstBaseTextOverlayHAlign OverlayRest.
Let EpochOverlay : Type :=
  GstEpochOverlay GstBaseTextOverlayVAlign GstBaseTextOverlayHAlign OverlayRest.
Let OverlayClass : Type := GstBaseTextOverlayClass ContextRest.
Let EpochOverlayClass : Type := GstEpochOverlayClass ContextRest.

(** *** Stores through the pointers the code holds *)

Definition set_valign (v : GstBaseTextOverlayVAlign) (o : Overlay) : Overlay :=
  {| object_lock := object_lock o; valign := v; halign := halign o;
     need_render := need_render o; overlay_rest := overlay_rest o |}.

Definition set_halign (v : GstBaseTextOverlayHAlign) (o : Overlay) : Overlay :=
  {| object_lock := object_lock o; valign := valign o; halign := v;
     need_render := need_render o; overlay_rest := overlay_rest o |}.

Definition set_need_render (v : bool) (o : Overlay) : Overlay :=
  {| object_lock := object_lock o; valign := valign o; halign := halign o;
     need_render := v; overlay_rest := overlay_rest o |}.

Definition set_object_lock (v : GMutex) (o : Overlay) : Overlay :=
  {| object_lock := v; valign := valign o; halign := halign o;
     need_render := need_render o; overlay_rest := overlay_rest o |}.

(** [GST_BASE_TEXT_OVERLAY (overlay)]: the instance seen as its base part. *)
Definition in_textoverlay (f : Overlay -> Overlay) (o : EpochOverlay) : EpochOverlay :=
  {| textoverlay := f (textoverlay o) |}.

(** The casts of [klass] to [GstBaseTextOverlayClass] and to its ancestors:
    the class seen as its base part. *)
Definition in_parent_class (f : OverlayClass -> OverlayClass) (k : EpochOverlayClass) :
  EpochOverlayClass :=
  {| parent_class := f (parent_class k) |}.

Definition set_finalize (v : funcptr) (k : OverlayClass) : OverlayClass :=
  {| finalize := v; set_property := set_property k; get_property := get_property k;
     metadata := metadata k; get_text := get_text k;
     pango_lock := pango_lock k; pango_context := pango_context k |}.

Definition set_set_property (v : funcptr) (k : OverlayClass) : OverlayClass :=
  {| finalize := finalize k; set_property := v; get_property := get_property k;
     metadata := metadata k; get_text := get_text k;
     pango_lock := pango_lock k; pango_context := pango_context k |}.

Definition set_get_property (v : funcptr) (k : OverlayClass) : OverlayClass :=
  {| finalize := finalize k; set_property := set_property k; get_property := v;
     metadata := metadata k; get_text := get_text k;
     pango_lock := pango_lock k; pango_context := pango_context k |}.

Definition set_metadata (v : option ElementMetadata) (k : OverlayClass) : OverlayClass :=
  {| finalize := finalize k; set_property := set_property k; get_property := get_property k;
     metadata := v; get_text := get_text k;
     pango_lock := pango_lock k; pango_context := pango_context k |}.

Definition set_get_text (v : funcptr) (k : OverlayClass) : OverlayClass :=
  {| finalize := finalize k; set_property := set_property k; get_property := get_property k;
     metadata := metadata k; get_text := v;
     pango_lock := pango_lock k; pango_context := pango_context k |}.

Definition set_pango_lock (v : GMutex) (k : OverlayClass) : OverlayClass :=
  {| finalize := finalize k; set_property := set_property k; get_property := get_property k;
     metadata := metadata k; get_text := get_text k;
     pango_lock := v; pango_context := pango_context k |}.

Definition set_pango_context (v : PangoContext ContextRest) (k : OverlayClass) : OverlayClass :=
  {| finalize := finalize k; set_property := set_property k; get_property := get_property k;
     metadata := metadata k; get_text := get_text k;
     pango_lock := pango_lock k; pango_context := v |}.

(** [gsttextoverlay_class->pango_lock]. *)
Definition klass_pango_lock : fieldptr EpochOverlayClass GMutex :=
  {| load := fun k => pango_lock (parent_class k);
     store := fun v => in_parent_class (set_pango_lock v) |}.

(** [gsttextoverlay_class->pango_context]. *)
Definition klass_pango_context : fieldptr EpochOverlayClass (PangoContext ContextRest) :=
  {| load := fun k => pango_context (parent_class k);
     store := fun v => in_parent_class (set_pango_context v) |}.

Definition gst_element_class_set_static_metadata
    (longname classification description author : string) :
  prog GParamSpec EpochOverlayClass unit :=
  modify (in_parent_class (set_metadata
    (Some {| md_longname := longname; md_classification := classification;
             md_description := description; md_author := author |}))).

(** *** [gst_epoch_overlay_get_text] *)

(** What a call of the text provider can reach: the overlay it is given
    and the heap [g_strdup] allocates from. *)
Record TextWorld : Type := { tw_overlay : Overlay; tw_heap : gmap N string }.

Definition tw_in_overlay (f : Overlay -> Overlay) (w : TextWorld) : TextWorld :=
  {| tw_overlay := f (tw_overlay w); tw_heap := tw_heap w |}.

Definition tw_heap_ptr : fieldptr TextWorld (gmap N string) :=
  {| load := tw_heap;
     store := fun h w => {| tw_overlay := tw_overlay w; tw_heap := h |} |}.

(** The state is [*overlay] and the heap; [clock] is what [gettimeofday]
    answers during this call. *)
Definition gst_epoch_overlay_get_text (video_frame : GstBuffer) (clock : Clock) :
  prog GParamSpec TextWorld N :=
  let '(ret, tp) := gettimeofday clock in
  buf ← (if ret =? 0 then
           let micro := to_ull (tv_sec tp) in
           let micro := ull_add (ull_mul micro (to_ull 1000000)) (to_ull (tv_usec tp)) in
           sprintf (format_PRIu64 micro)
         else
           sprintf "gettimeofday failed"%string);
  modify (tw_in_overlay (set_need_render TRUE));;
  g_strdup tw_heap_ptr buf.

(** The text a run of the provider hands to its caller: what the returned
    pointer points to. *)
Definition returned_text (r : outcome GParamSpec TextWorld N) : option string :=
  match r with
  | Returns p w _ => tw_heap w !! p
  | Faults _ _ _ => None
  end.

(** *** [gst_epoch_overlay_class_init] *)

Definition gst_epoch_overlay_class_init : prog GParamSpec EpochOverlayClass unit :=
  modify (in_parent_class (set_finalize FN_gst_epoch_overlay_finalize));;
  modify (in_parent_class (set_set_property FN_gst_epoch_overlay_set_property));;
  modify (in_parent_class (set_get_property FN_gst_epoch_overlay_get_property));;
  gst_element_class_set_static_metadata "Epoch overlay" "Filter/Editor/Video"
    "Overlays the current time in microseconds from the unix epoch on a video stream"
    "Tim-Philipp Müller <tim@centricular.net> with modifications from Konstantinos Sofokleous <kostas@epoch.com>";;
  modify (in_parent_class (set_get_text FN_gst_epoch_overlay_get_text));;
  g_mutex_lock PangoLock klass_pango_lock;;
  let context := klass_pango_context in
  pango_context_set_language context (pango_language_from_string "en_US");;
  pango_context_set_base_dir context PANGO_DIRECTION_LTR;;
  let font_description := pango_font_description_new in
  let font_description := pango_font_description_set_family_static font_description "Courier" in
  let font_description := pango_font_description_set_style font_description PANGO_STYLE_NORMAL in
  let font_description :=
    pango_font_description_set_variant font_description PANGO_VARIANT_NORMAL in
  let font_description :=
    pango_font_description_set_weight font_description PANGO_WEIGHT_NORMAL in
  let font_description :=
    pango_font_description_set_stretch font_description PANGO_STRETCH_NORMAL in
  let font_description := pango_font_description_set_size font_description (50 * PANGO_SCALE) in
  pango_context_set_font_description context font_description;;
  pango_font_description_free font_description;;
  g_mutex_unlock PangoLock klass_pango_lock.

(** *** [gst_epoch_overlay_init] *)

Definition gst_epoch_overlay_init : prog GParamSpec EpochOverlay unit :=
  modify (in_textoverlay (set_valign GST_BASE_TEXT_OVERLAY_VALIGN_TOP));;
  modify (in_textoverlay (set_halign GST_BASE_TEXT_OVERLAY_HALIGN_LEFT)).

(** *** [gst_epoch_overlay_finalize] *)

(** [G_OBJECT_CLASS (parent_class)->finalize (object)]: what the parent's
    finalizer does is the host's business. *)
Variable parent_class_finalize : prog GParamSpec EpochOverlay unit.

Definition gst_epoch_overlay_finalize : prog GParamSpec EpochOverlay unit :=
  parent_class_finalize.

(** *** The property handlers *)

(** [GST_OBJECT_GET_LOCK (overlay)]. *)
Definition overlay_object_lock : fieldptr EpochOverlay GMutex :=
  {| load := fun o => object_lock (textoverlay o);
     store := fun v => in_textoverlay (set_object_lock v) |}.

Definition G_OBJECT_WARN_INVALID_PROPERTY_ID {S : Type} (prop_id : Z) (pspec : GParamSpec) :
  prog GParamSpec S unit :=
  g_warning (InvalidPropertyId prop_id pspec).

(** The state is [*object]; [value] is read-only. *)
Definition gst_epoch_overlay_set_property (prop_id : Z) (value : GValue) (pspec : GParamSpec) :
  prog GParamSpec EpochOverlay unit :=
  g_mutex_lock ObjectLock overlay_object_lock;;
  match prop_id with
  | _ => G_OBJECT_WARN_INVALID_PROPERTY_ID prop_id pspec
  end;;
  g_mutex_unlock ObjectLock overlay_object_lock.

(** [*value] is the handler's to fill in, so it is part of the state. *)
Definition value_object_lock : fieldptr (EpochOverlay * GValue) GMutex :=
  {| load := fun s => load overlay_object_lock (fst s);
     store := fun v s => (store overlay_object_lock v (fst s), snd s) |}.

Definition gst_epoch_overlay_get_property (prop_id : Z) (pspec : GParamSpec) :
  prog GParamSpec (EpochOverlay * GValue) unit :=
  g_mutex_lock ObjectLock value_object_lock;;
  match prop_id with
  | _ => G_OBJECT_WARN_INVALID_PROPERTY_ID prop_id pspec
  end;;
  g_mutex_unlock ObjectLock value_object_lock.
End EpochOverlay.

Arguments TextWorld : clear implicits.

(** The contents of [buf] when [sprintf] is done (line 85 of the source), as
    the clock's answer decides them. *)
Definition buf_contents (clock : Clock) : string :=
  if clock_ret clock =? 0
  then format_PRIu64
         (ull_add (ull_mul (to_ull (tv_sec (clock_tp clock))) (to_ull 1000000))
                  (to_ull (tv_usec (clock_tp clock))))
  else "gettimeofday failed"%string.

(** ** Calls in sequence *)

Section CallSequences.
Context {GstBuffer GValue GParamSpec : Type}.
Context {GstBaseTextOverlayVAlign GstBaseTextOverlayHAlign OverlayRest : Type}.
Context {allocator : GAllocator}.

(** The text provider called once per frame, in order, with every returned
    block kept alive; the result is the list of returned pointers. *)
Fixpoint get_text_calls (calls : list (GstBuffer * Clock)) :
  prog GParamSpec
    (TextWorld GstBaseTextOverlayVAlign GstBaseTextOverlayHAlign OverlayRest) (list N) :=
  match calls with
  | [] => mret []
  | (video_frame, clock) :: rest =>
      p ← gst_epoch_overlay_get_text video_frame clock;
      ps ← get_text_calls rest;
      mret (p :: ps)
  end.

(** [gst_epoch_overlay_set_property] called for one request after the
    other on the same instance. *)
Fixpoint set_property_calls (requests : list (Z * GValue * GParamSpec)) :
  prog GParamSpec
    (GstEpochOverlay GstBaseTextOverlayVAlign GstBaseTextOverlayHAlign OverlayRest) unit :=
  match requests with
  | [] => mret tt
  | (prop_id, value, pspec) :: rest =>
      gst_epoch_overlay_set_property prop_id value pspec;;
      set_property_calls rest
  end.

(** What one call of a property handler leaves in the trace. *)
Definition invalid_property_trace (request : Z * GValue * GParamSpec) :
  list (Event GParamSpec) :=
  [EvMutexLock ObjectLock;
   EvLog G_LOG_LEVEL_WARNING (InvalidPropertyId (fst (fst request)) (snd request));
   EvMutexUnlock ObjectLock].
End CallSequences.

(** The state a run ends in, whether it returned or not. *)
Definition final_state {GParamSpec S A : Type} (r : outcome GParamSpec S A) : S :=
  match r with
  | Returns _ s _ => s
  | Faults _ s _ => s
  end.

(** ** Observations on traces *)

(** How many times a run set attribute [a] of the rendering context. *)
Fixpoint context_sets {GParamSpec : Type} (a : ContextAttribute) (tr : list (Event GParamSpec)) :
  nat :=
  match tr with
  | [] => O
  | EvContextSet b :: tr' =>
      match a, b with
      | AttrLanguage, AttrLanguage
      | AttrBaseDir, AttrBaseDir
      | AttrFontDescription, AttrFontDescription => S (context_sets a tr')
      | _, _ => context_sets a tr'
      end
  | _ :: tr' => context_sets a tr'
  end.

(** The lock discipline of the shared rendering context, checked along a
    trace: [held] says whether the run holds [pango_lock] so far.  The run
    may take the lock only when it does not hold it, release it only when it
    does, and touch the context only while it does.  The result is [None] at
    the first violation, and otherwise whether the lock is held at the end. *)
Fixpoint pango_lock_monitor {GParamSpec : Type} (held : bool) (tr : list (Event GParamSpec)) :
  option bool :=
  match tr with
  | [] => Some held
  | EvMutexLock PangoLock :: tr' => if held then None else pango_lock_monitor true tr'
  | EvMutexUnlock PangoLock :: tr' => if held then pango_lock_monitor false tr' else None
  | EvContextSet _ :: tr' => if held then pango_lock_monitor held tr' else None
  | _ :: tr' => pango_lock_monitor held tr'
  end.

(** ** Sample inputs *)

Module Sample.
(** An instance with alignment values other than top and left (the
    alignments are numbered here), not yet asking for a render. *)
Definition overlay : GstBaseTextOverlay nat nat unit :=
  {| object_lock := MutexFree; valign := 1%nat; halign := 2%nat;
     need_render := false; overlay_rest := tt |}.

(** The instance and a heap with one live block. *)
Definition world : TextWorld nat nat unit :=
  {| tw_overlay := overlay; tw_heap := {[ 1%N := "live"%string ]} |}.

(** A class as the parent's initialization could leave it. *)
Definition klass : GstEpochOverlayClass unit :=
  {| parent_class :=
       {| finalize := FN_inherited 0; set_property := FN_inherited 1;
          get_property := FN_inherited 2; metadata := None; get_text := FN_inherited 3;
          pango_lock := MutexFree;
          pango_context :=
            {| ctx_language := pango_language_from_string "C";
               ctx_base_dir := PANGO_DIRECTION_NEUTRAL;
               ctx_font_description := pango_font_description_new;
               ctx_rest := tt |} |} |}.
End Sample.

(** ** Lemmas on the conversion loop *)

Lemma digit_char_code (d : Z) :
  0 <= d < 10 -> Z.of_N (N_of_ascii (digit_char d)) = 48 + d.
Proof.
  intros Hd. unfold digit_char.
  rewrite N_ascii_embedding by lia. lia.
Qed.

Lemma digit_of_digit_char (d : Z) : 0 <= d < 10 -> digit_of (digit_char d) = d.
Proof. intros Hd. unfold digit_of. rewrite digit_char_code by assumption. lia. Qed.

Lemma digit_char_is_digit (d : Z) : 0 <= d < 10 -> is_digit (digit_char d) = true.
Proof.
  intros Hd. unfold is_digit. rewrite digit_char_code by assumption.
  apply andb_true_intro; split; apply Z.leb_le; lia.
Qed.

Lemma digit_char_zero (d : Z) : 0 <= d < 10 -> digit_char d = "0"%char -> d = 0.
Proof.
  intros Hd E. pose proof (digit_char_code d Hd) as H.
  rewrite E in H. simpl in H. lia.
Qed.

Lemma string_app_cons (c : ascii) (s t : string) :
  (String c s ++ t)%string = String c (s ++ t).
Proof. reflexivity. Qed.

Lemma string_app_nil (s : string) : (s ++ EmptyString)%string = s.
Proof.
  induction s as [|c s IH]; [reflexivity|].
  now rewrite string_app_cons, IH.
Qed.

Lemma string_app_assoc (s t u : string) :
  ((s ++ t) ++ u)%string = (s ++ (t ++ u))%string.
Proof.
  induction s as [|c s IH]; [reflexivity|].
  now rewrite !string_app_cons, IH.
Qed.

Lemma string_length_app (s t : string) :
  String.length (s ++ t) = (String.length s + String.length t)%nat.
Proof.
  induction s as [|c s IH]; [reflexivity|].
  rewrite string_app_cons. simpl. now rewrite IH.
Qed.

Lemma all_digits_app (s t : string) :
  all_digits (s ++ t)%string = all_digits s && all_digits t.
Proof.
  induction s as [|c s IH]; [reflexivity|].
  rewrite string_app_cons. simpl. rewrite IH. apply andb_assoc.
Qed.

Lemma decimal_value_from_app (s t : string) (a : Z) :
  decimal_value_from a (s ++ t)%string = decimal_value_from (decimal_value_from a s) t.
Proof.
  revert a. induction s as [|c s IH]; intros a; [reflexivity|].
  rewrite string_app_cons. simpl. apply IH.
Qed.

Lemma no_leading_zero_cons (c : ascii) (t : string) :
  (c = "0"%char -> t = EmptyString) -> no_leading_zero (String c t) = true.
Proof.
  intros H. destruct t as [|c' t]; [now destruct c as [[] [] [] [] [] [] [] []]|].
  destruct (Ascii.ascii_dec c "0"%char) as [Hc|Hc]; [now specialize (H Hc)|].
  destruct c as [[] [] [] [] [] [] [] []]; try reflexivity. now elim Hc.
Qed.

(** What the loop has written once it stops: a block [ds] of digits in front
    of what was there, denoting [n], with a nonzero first digit unless
    [n = 0]. *)
Record loop_output (n : Z) (ds : string) : Prop := {
  lo_digits : all_digits ds = true;
  lo_length : (1 <= String.length ds)%nat;
  lo_value : forall a, decimal_value_from a ds = a * 10 ^ Z.of_nat (String.length ds) + n;
  lo_head : forall c t, ds = String c t -> c = "0"%char -> n = 0 /\ t = EmptyString
}.

Lemma utoa_loop_spec (fuel : nat) :
  forall (n : Z) (acc : string),
    (0 < fuel)%nat -> 0 <= n < 10 ^ Z.of_nat fuel ->
    exists ds, utoa_loop fuel n acc = (ds ++ acc)%string
               /\ loop_output n ds /\ (String.length ds <= fuel)%nat.
Proof.
  induction fuel as [|fuel IH]; intros n acc Hfuel0 Hn.
  - lia.
  - cbn [utoa_loop].
    assert (Hmod : 0 <= n mod 10 < 10) by (apply Z.mod_pos_bound; lia).
    assert (Hdiv : n = 10 * (n / 10) + n mod 10) by (apply Z.div_mod; lia).
    destruct (Z.eqb_spec (n / 10) 0) as [Hz|Hnz].
    + exists (String (digit_char (n mod 10)) EmptyString). split; [reflexivity|].
      split; [constructor|simpl; lia].
      * simpl. rewrite digit_char_is_digit by assumption. reflexivity.
      * simpl. lia.
      * intros a. simpl. rewrite digit_of_digit_char by assumption.
        change (10 ^ Z.of_nat 1) with 10. lia.
      * intros c t E Hc. injection E as Ec Et. subst c t. split; [|reflexivity].
        apply digit_char_zero in Hc; [lia|assumption].
    + assert (Hq : 0 <= n / 10 < 10 ^ Z.of_nat fuel).
      { split; [apply Z.div_pos; lia|].
        apply Z.div_lt_upper_bound; [lia|].
        rewrite Nat2Z.inj_succ, Z.pow_succ_r in Hn by lia. lia. }
      assert (Hpos : (0 < fuel)%nat).
      { destruct fuel; [simpl in Hq; lia|lia]. }
      destruct (IH (n / 10) (String (digit_char (n mod 10)) acc) Hpos Hq)
        as (ds & Eq & [Hdig Hlen Hval Hhead] & Hfuel).
      exists (ds ++ String (digit_char (n mod 10)) EmptyString)%string.
      assert (Hlen' : String.length (ds ++ String (digit_char (n mod 10)) EmptyString)
                      = S (String.length ds)).
      { rewrite string_length_app. simpl. lia. }
      split; [|split; [constructor|lia]].
      * rewrite Eq, string_app_assoc. reflexivity.
      * rewrite all_digits_app, Hdig. simpl.
        rewrite digit_char_is_digit by assumption. reflexivity.
      * lia.
      * intros a. rewrite decimal_value_from_app, Hval, Hlen'. simpl decimal_value_from.
        rewrite digit_of_digit_char by assumption.
        rewrite Nat2Z.inj_succ, Z.pow_succ_r by lia. lia.
      * intros c t E Hc. destruct ds as [|c' ds']; [simpl in Hlen; lia|].
        rewrite string_app_cons in E. injection E as Ec Et. subst c'.
        destruct (Hhead c ds' eq_refl Hc) as [Hq0 _]. lia.
Qed.

Lemma ULLONG_fits_in_20_digits : ULLONG_MODULUS <= 10 ^ Z.of_nat PRIu64_MAX_DIGITS.
Proof. vm_compute. discriminate. Qed.

(** The conversion never runs out of digits on a 64-bit value, and its output
    is the canonical numeral of that value. *)
Lemma format_PRIu64_numeral (n : Z) :
  0 <= n < ULLONG_MODULUS ->
  decimal_numeral_of n (format_PRIu64 n)
  /\ (String.length (format_PRIu64 n) <= PRIu64_MAX_DIGITS)%nat.
Proof.
  intros Hn. unfold format_PRIu64.
  destruct (utoa_loop_spec PRIu64_MAX_DIGITS n EmptyString) as (ds & E & [Hd Hl Hv Hh] & Hf).
  { unfold PRIu64_MAX_DIGITS. lia. }
  { pose proof ULLONG_fits_in_20_digits. lia. }
  rewrite E.
  rewrite string_app_nil. split; [|assumption].
  split; [|split].
  - destruct ds; [simpl in Hl; lia|exact Hd].
  - destruct ds as [|c t]; [reflexivity|].
    apply no_leading_zero_cons. intros Hc. now destruct (Hh c t eq_refl Hc).
  - unfold decimal_value. rewrite Hv. lia.
Qed.

(** ** A number has one decimal numeral *)

Lemma is_digit_range (c : ascii) : is_digit c = true -> 0 <= digit_of c < 10.
Proof.
  unfold is_digit, digit_of. intros H.
  apply andb_prop in H as [H1 H2].
  apply Z.leb_le in H1. apply Z.leb_le in H2. lia.
Qed.

Lemma digit_of_inj (c d : ascii) : digit_of c = digit_of d -> c = d.
Proof.
  unfold digit_of. intros H.
  rewrite <- (ascii_N_embedding c), <- (ascii_N_embedding d).
  f_equal. lia.
Qed.

Lemma decimal_value_from_shift (s : string) (a : Z) :
  decimal_value_from a s = a * 10 ^ Z.of_nat (String.length s) + decimal_value s.
Proof.
  unfold decimal_value. revert a.
  induction s as [|c s IH]; intros a.
  - simpl. lia.
  - cbn [decimal_value_from String.length].
    rewrite (IH (10 * a + _)), (IH (10 * 0 + _)).
    rewrite Nat2Z.inj_succ, Z.pow_succ_r by lia. lia.
Qed.

Lemma decimal_value_cons (c : ascii) (s : string) :
  decimal_value (String c s) = digit_of c * 10 ^ Z.of_nat (String.length s) + decimal_value s.
Proof.
  unfold decimal_value at 1. cbn [decimal_value_from].
  rewrite decimal_value_from_shift. lia.
Qed.

Lemma decimal_value_bound (s : string) :
  all_digits s = true -> 0 <= decimal_value s < 10 ^ Z.of_nat (String.length s).
Proof.
  induction s as [|c s IH]; intros H.
  - unfold decimal_value. simpl. lia.
  - simpl in H. apply andb_prop in H as [Hc Hs].
    rewrite decimal_value_cons. cbn [String.length].
    rewrite Nat2Z.inj_succ, Z.pow_succ_r by lia.
    pose proof (is_digit_range c Hc). specialize (IH Hs). nia.
Qed.

Lemma same_length_same_value (s : string) :
  forall t, String.length s = String.length t ->
            all_digits s = true -> all_digits t = true ->
            decimal_value s = decimal_value t -> s = t.
Proof.
  induction s as [|c s IH]; intros [|d t] Hlen Hs Ht Hval; try discriminate.
  - reflexivity.
  - simpl in Hlen, Hs, Ht. injection Hlen as Hlen.
    apply andb_prop in Hs as [Hc Hs]. apply andb_prop in Ht as [Hd Ht].
    rewrite !decimal_value_cons, <- Hlen in Hval.
    pose proof (is_digit_range c Hc). pose proof (is_digit_range d Hd).
    pose proof (decimal_value_bound s Hs) as Bs.
    pose proof (decimal_value_bound t Ht) as Bt. rewrite <- Hlen in Bt.
    assert (Hdig : digit_of c = digit_of d) by nia.
    rewrite (digit_of_inj c d Hdig). f_equal.
    apply IH; try assumption. rewrite Hdig in Hval. lia.
Qed.

Lemma no_leading_zero_head (c : ascii) (t : string) :
  no_leading_zero (String c t) = true -> c = "0"%char -> t = EmptyString.
Proof.
  intros H ->. destruct t; [reflexivity|discriminate].
Qed.

(** A numeral without leading zero has exactly as many digits as its value
    needs. *)
Lemma numeral_length_bounds (c : ascii) (t : string) :
  all_digits (String c t) = true -> c <> "0"%char ->
  10 ^ Z.of_nat (String.length t) <= decimal_value (String c t)
  < 10 ^ Z.of_nat (S (String.length t)).
Proof.
  intros Hd Hc. pose proof (decimal_value_bound _ Hd) as B. cbn [String.length] in B.
  split; [|apply B].
  simpl in Hd. apply andb_prop in Hd as [Hcd Ht].
  rewrite decimal_value_cons.
  pose proof (is_digit_range c Hcd). pose proof (decimal_value_bound t Ht).
  assert (digit_of c <> 0).
  { intros Hz. apply Hc. apply digit_of_inj. rewrite Hz. reflexivity. }
  nia.
Qed.

Lemma decimal_numeral_unique (n : Z) (s t : string) :
  decimal_numeral_of n s -> decimal_numeral_of n t -> s = t.
Proof.
  intros (Hs & Ls & Vs) (Ht & Lt & Vt).
  destruct s as [|c s]; [discriminate|]. destruct t as [|d t]; [discriminate|].
  simpl in Hs, Ht.
  apply same_length_same_value; try assumption; [|congruence].
  destruct (Ascii.ascii_dec c "0"%char) as [Hc|Hc];
    destruct (Ascii.ascii_dec d "0"%char) as [Hd|Hd].
  - rewrite (no_leading_zero_head c s Ls Hc), (no_leading_zero_head d t Lt Hd). reflexivity.
  - pose proof (numeral_length_bounds d t Ht Hd) as [Bd _].
    rewrite (no_leading_zero_head c s Ls Hc) in Vs. subst c.
    assert (n = 0) by (rewrite <- Vs; reflexivity).
    assert (0 < 10 ^ Z.of_nat (String.length t)) by (apply Z.pow_pos_nonneg; lia). lia.
  - pose proof (numeral_length_bounds c s Hs Hc) as [Bc _].
    rewrite (no_leading_zero_head d t Lt Hd) in Vt. subst d.
    assert (n = 0) by (rewrite <- Vt; reflexivity).
    assert (0 < 10 ^ Z.of_nat (String.length s)) by (apply Z.pow_pos_nonneg; lia). lia.
  - pose proof (numeral_length_bounds c s Hs Hc) as [Bc1 Bc2].
    pose proof (numeral_length_bounds d t Ht Hd) as [Bd1 Bd2].
    rewrite Vs in Bc1, Bc2. rewrite Vt in Bd1, Bd2.
    cbn [String.length]. f_equal.
    destruct (Nat.lt_trichotomy (String.length s) (String.length t)) as [Hlt|[Heq|Hgt]];
      [exfalso|exact Heq|exfalso].
    + assert (10 ^ Z.of_nat (S (String.length s)) <= 10 ^ Z.of_nat (String.length t))
        by (apply Z.pow_le_mono_r; lia). lia.
    + assert (10 ^ Z.of_nat (S (String.length t)) <= 10 ^ Z.of_nat (String.length s))
        by (apply Z.pow_le_mono_r; lia). lia.
Qed.

(** ** Running programs *)

Section Running.
Context {GParamSpec S : Type}.

Lemma run_bind {A B : Type} (m : prog GParamSpec S A) (k : A -> prog GParamSpec S B) (s : S) :
  (m ≫= k) s =
  match m s with
  | Returns a s' tr =>
      match k a s' with
      | Returns b s'' tr' => Returns b s'' (tr ++ tr')
      | Faults f s'' tr' => Faults f s'' (tr ++ tr')
      end
  | Faults f s' tr => Faults f s' tr
  end.
Proof. reflexivity. Qed.

Lemma sprintf_fits (text : string) (s : S) :
  (String.length text <= PRIu64_MAX_DIGITS)%nat ->
  sprintf (GParamSpec := GParamSpec) text s = Returns text s [].
Proof.
  intros Hlen. unfold sprintf.
  destruct (Z.ltb_spec (Z.of_nat (String.length text)) BUF_SIZE) as [_|Hge]; [reflexivity|].
  unfold BUF_SIZE, PRIu64_MAX_DIGITS in *. lia.
Qed.
End Running.

(** ** The text provider *)

(** The value of [micro] after a successful clock read. *)
Lemma micro_value (s u : Z) :
  ull_add (ull_mul (to_ull s) (to_ull 1000000)) (to_ull u) = (s * 1000000 + u) mod ULLONG_MODULUS.
Proof.
  unfold ull_add, ull_mul, to_ull.
  assert (Hm : ULLONG_MODULUS <> 0) by (unfold ULLONG_MODULUS; lia).
  rewrite <- Z.mul_mod by exact Hm.
  rewrite <- Z.add_mod by exact Hm.
  reflexivity.
Qed.

Section TextProvider.
Context {GstBuffer GParamSpec : Type}.
Context {GstBaseTextOverlayVAlign GstBaseTextOverlayHAlign OverlayRest : Type}.

(** Every run of the provider returns: nothing overflows [buf], a block is
    allocated for the copy, and the overlay is marked for rendering. *)
Lemma get_text_run {allocator : GAllocator} (video_frame : GstBuffer) (clock : Clock)
    (w : TextWorld GstBaseTextOverlayVAlign GstBaseTextOverlayHAlign OverlayRest) :
  gst_epoch_overlay_get_text (GParamSpec := GParamSpec) video_frame clock w =
  Returns (g_malloc_addr (tw_heap w))
    {| tw_overlay := set_need_render TRUE (tw_overlay w);
       tw_heap := <[g_malloc_addr (tw_heap w) := buf_contents clock]> (tw_heap w) |}
    [].
Proof.
  unfold gst_epoch_overlay_get_text, gettimeofday, buf_contents.
  rewrite run_bind.
  destruct (clock_ret clock =? 0).
  - rewrite sprintf_fits; [reflexivity|].
    rewrite micro_value.
    apply format_PRIu64_numeral. apply Z.mod_pos_bound. unfold ULLONG_MODULUS. lia.
  - reflexivity.
Qed.
End TextProvider.

Section TextProviderClaims.
Context {GstBuffer GParamSpec : Type}.
Context {GstBaseTextOverlayVAlign GstBaseTextOverlayHAlign OverlayRest : Type}.

Lemma buf_contents_success (s u : Z) :
  buf_contents {| clock_ret := 0; clock_tp := {| tv_sec := s; tv_usec := u |} |}
  = format_PRIu64 ((s * 1000000 + u) mod ULLONG_MODULUS).
Proof. unfold buf_contents. simpl. now rewrite micro_value. Qed.

Lemma buf_contents_failure (clock : Clock) :
  clock_ret clock <> 0 -> buf_contents clock = "gettimeofday failed"%string.
Proof.
  intros Hret. unfold buf_contents.
  destruct (Z.eqb_spec (clock_ret clock) 0); [contradiction|reflexivity].
Qed.

Lemma returned_text_get_text {allocator : GAllocator} (video_frame : GstBuffer) (clock : Clock)
    (w : TextWorld GstBaseTextOverlayVAlign GstBaseTextOverlayHAlign OverlayRest) :
  returned_text (gst_epoch_overlay_get_text (GParamSpec := GParamSpec) video_frame clock w)
  = Some (buf_contents clock).
Proof. rewrite get_text_run. simpl. apply lookup_insert_eq. Qed.

(** C1. For every successful clock reading (gettimeofday returns 0) with
    seconds [s] and microseconds [u], the provider returns the decimal
    numeral (digits only, no leading zero except for ["0"]; a number has
    just one) of the unsigned 64-bit value [s * 1000000 + u], which is
    that number itself whenever it fits in 64 bits; seconds 1 and microseconds 500000 give ["1500000"],
    and seconds 0 and microseconds 0 give ["0"]. *)
Theorem get_text_success_decimal {allocator : GAllocator} (video_frame : GstBuffer)
    (w : TextWorld GstBaseTextOverlayVAlign GstBaseTextOverlayHAlign OverlayRest)
    (s u : Z) :
  (exists text,
      returned_text
        (gst_epoch_overlay_get_text (GParamSpec := GParamSpec) video_frame
           {| clock_ret := 0; clock_tp := {| tv_sec := s; tv_usec := u |} |} w)
      = Some text
      /\ decimal_numeral_of ((s * 1000000 + u) mod 2 ^ 64) text
      /\ (forall other, decimal_numeral_of ((s * 1000000 + u) mod 2 ^ 64) other ->
                         other = text)
      /\ (0 <= s * 1000000 + u < 2 ^ 64 -> decimal_numeral_of (s * 1000000 + u) text))
  /\ returned_text
       (gst_epoch_overlay_get_text (GParamSpec := GParamSpec) video_frame
          {| clock_ret := 0; clock_tp := {| tv_sec := 1; tv_usec := 500000 |} |} w)
     = Some "1500000"%string
  /\ returned_text
       (gst_epoch_overlay_get_text (GParamSpec := GParamSpec) video_frame
          {| clock_ret := 0; clock_tp := {| tv_sec := 0; tv_usec := 0 |} |} w)
     = Some "0"%string.
Proof.
  split; [|split].
  - exists (format_PRIu64 ((s * 1000000 + u) mod ULLONG_MODULUS)).
    rewrite returned_text_get_text, buf_contents_success.
    split; [reflexivity|].
    assert (Hnum : decimal_numeral_of ((s * 1000000 + u) mod ULLONG_MODULUS)
                     (format_PRIu64 ((s * 1000000 + u) mod ULLONG_MODULUS))).
    { apply format_PRIu64_numeral. apply Z.mod_pos_bound. unfold ULLONG_MODULUS. lia. }
    split; [exact Hnum|].
    split; [intros other Hother; exact (decimal_numeral_unique _ _ _ Hother Hnum)|].
    intros Hfit. fold ULLONG_MODULUS in Hfit.
    rewrite (Z.mod_small _ _ Hfit) in Hnum |- *. exact Hnum.
  - rewrite returned_text_get_text. reflexivity.
  - rewrite returned_text_get_text. reflexivity.
Qed.

(** C2. When the clock read fails (gettimeofday returns a nonzero value),
    the provider still returns normally, without logging anything, and
    the string it returns is exactly ["gettimeofday failed"]. *)
Theorem get_text_clock_failure {allocator : GAllocator} (video_frame : GstBuffer) (clock : Clock)
    (w : TextWorld GstBaseTextOverlayVAlign GstBaseTextOverlayHAlign OverlayRest) :
  clock_ret clock <> 0 ->
  exists p w',
    gst_epoch_overlay_get_text (GParamSpec := GParamSpec) video_frame clock w
    = Returns p w' []
    /\ p <> NULL
    /\ tw_heap w' !! p = Some "gettimeofday failed"%string.
Proof.
  intros Hret. eexists _, _. rewrite get_text_run.
  split; [reflexivity|]. split; [apply g_malloc_not_null|].
  simpl. rewrite lookup_insert_eq, (buf_contents_failure clock Hret). reflexivity.
Qed.

(** C3. Every call of the provider, whatever the clock answers and
    whatever the overlay held before, returns with [need_render] set to
    TRUE and with every other field of the overlay as it was. *)
Theorem get_text_sets_need_render {allocator : GAllocator} (video_frame : GstBuffer) (clock : Clock)
    (w : TextWorld GstBaseTextOverlayVAlign GstBaseTextOverlayHAlign OverlayRest) :
  exists p w' tr,
    gst_epoch_overlay_get_text (GParamSpec := GParamSpec) video_frame clock w
    = Returns p w' tr
    /\ need_render (tw_overlay w') = TRUE
    /\ object_lock (tw_overlay w') = object_lock (tw_overlay w)
    /\ valign (tw_overlay w') = valign (tw_overlay w)
    /\ halign (tw_overlay w') = halign (tw_overlay w)
    /\ overlay_rest (tw_overlay w') = overlay_rest (tw_overlay w).
Proof.
  eexists _, _, _. rewrite get_text_run.
  split; [reflexivity|]. simpl. repeat split; reflexivity.
Qed.

Lemma buf_contents_well_formed (clock : Clock) :
  (matches_digits_regex (buf_contents clock) = true
   /\ 0 <= decimal_value (buf_contents clock) < 2 ^ 64)
  \/ buf_contents clock = "gettimeofday failed"%string.
Proof.
  unfold buf_contents. destruct (clock_ret clock =? 0); [left|right; reflexivity].
  rewrite micro_value.
  set (n := (_ mod _)).
  assert (Hn : 0 <= n < ULLONG_MODULUS).
  { apply Z.mod_pos_bound. unfold ULLONG_MODULUS. lia. }
  destruct (format_PRIu64_numeral n Hn) as [(Hre & _ & Hval) _].
  split; [exact Hre|]. rewrite Hval. exact Hn.
Qed.

(** C4. Whatever the frame, the clock's answer and the state before, the
    provider returns a pointer that is not NULL, to a block that was not
    live before the call (so the next call returns a different one) and
    leaves the live blocks alone; the block holds either an unsigned
    64-bit decimal numeral matching [^[0-9]+$] or the literal
    ["gettimeofday failed"]. *)
Theorem get_text_returns_fresh_well_formed {allocator : GAllocator} (video_frame : GstBuffer)
    (clock : Clock)
    (w : TextWorld GstBaseTextOverlayVAlign GstBaseTextOverlayHAlign OverlayRest) :
  exists p w' text,
    gst_epoch_overlay_get_text (GParamSpec := GParamSpec) video_frame clock w
    = Returns p w' []
    /\ p <> NULL
    /\ tw_heap w !! p = None
    /\ tw_heap w' !! p = Some text
    /\ (forall q, q <> p -> tw_heap w' !! q = tw_heap w !! q)
    /\ ((matches_digits_regex text = true /\ 0 <= decimal_value text < 2 ^ 64)
        \/ text = "gettimeofday failed"%string)
    /\ (forall (video_frame2 : GstBuffer) (clock2 : Clock),
           exists p2 w2,
             gst_epoch_overlay_get_text (GParamSpec := GParamSpec) video_frame2 clock2 w'
             = Returns p2 w2 []
             /\ p2 <> p).
Proof.
  eexists _, _, (buf_contents clock). rewrite get_text_run.
  split; [reflexivity|]. simpl.
  split; [apply g_malloc_not_null|].
  split; [apply g_malloc_fresh|].
  split; [apply lookup_insert_eq|].
  split; [intros q Hq; apply lookup_insert_ne; congruence|].
  split; [apply buf_contents_well_formed|].
  intros video_frame2 clock2. eexists _, _. rewrite get_text_run.
  split; [reflexivity|]. simpl. intros Heq.
  pose proof (g_malloc_fresh
                (<[g_malloc_addr (tw_heap w) := buf_contents clock]> (tw_heap w))) as Hfresh.
  rewrite Heq, lookup_insert_eq in Hfresh. discriminate.
Qed.

(** C10. The returned string is a function of the clock's answer alone:
    for one answer, two calls return equal strings whatever the two frame
    arguments, the two states the earlier calls left behind (overlay and
    heap), and the two allocators are. *)
Theorem get_text_depends_on_clock_only (alloc1 alloc2 : GAllocator) (clock : Clock)
    (video_frame1 video_frame2 : GstBuffer)
    (w1 w2 : TextWorld GstBaseTextOverlayVAlign GstBaseTextOverlayHAlign OverlayRest) :
  exists text,
    returned_text
      (gst_epoch_overlay_get_text (GParamSpec := GParamSpec) (allocator := alloc1)
         video_frame1 clock w1) = Some text
    /\ returned_text
         (gst_epoch_overlay_get_text (GParamSpec := GParamSpec) (allocator := alloc2)
            video_frame2 clock w2) = Some text.
Proof.
  exists (buf_contents clock). split; apply returned_text_get_text.
Qed.
End TextProviderClaims.

(** ** Class initialization *)

Section ClassInit.
Context {GParamSpec ContextRest : Type}.

(** The whole run from a free lock: the class it leaves and its trace. *)
Lemma class_init_run_free (klass : GstEpochOverlayClass ContextRest) :
  pango_lock (parent_class klass) = MutexFree ->
  gst_epoch_overlay_class_init (GParamSpec := GParamSpec) klass =
  Returns tt
    {| parent_class :=
         {| finalize := FN_gst_epoch_overlay_finalize;
            set_property := FN_gst_epoch_overlay_set_property;
            get_property := FN_gst_epoch_overlay_get_property;
            metadata := Some
              {| md_longname := "Epoch overlay";
                 md_classification := "Filter/Editor/Video";
                 md_description :=
                   "Overlays the current time in microseconds from the unix epoch on a video stream";
                 md_author :=
                   "Tim-Philipp Müller <tim@centricular.net> with modifications from Konstantinos Sofokleous <kostas@epoch.com>" |};
            get_text := FN_gst_epoch_overlay_get_text;
            pango_lock := MutexFree;
            pango_context :=
              {| ctx_language := pango_language_from_string "en_US";
                 ctx_base_dir := PANGO_DIRECTION_LTR;
                 ctx_font_description :=
                   {| fd_family := Some "Courier"%string;
                      fd_style := Some PANGO_STYLE_NORMAL;
                      fd_variant := Some PANGO_VARIANT_NORMAL;
                      fd_weight := Some PANGO_WEIGHT_NORMAL;
                      fd_stretch := Some PANGO_STRETCH_NORMAL;
                      fd_size := Some (50 * PANGO_SCALE) |};
                 ctx_rest := ctx_rest (pango_context (parent_class klass)) |} |} |}
    [EvMutexLock PangoLock; EvContextSet AttrLanguage; EvContextSet AttrBaseDir;
     EvContextSet AttrFontDescription; EvMutexUnlock PangoLock].
Proof.
  destruct klass as [[fin setp getp md gt lock [lang dir fd rest]]].
  simpl. intros ->. reflexivity.
Qed.

(** With the lock held on entry, the run stops in [g_mutex_lock]: only the
    class's own slots have been written by then. *)
Lemma class_init_run_held (klass : GstEpochOverlayClass ContextRest) :
  pango_lock (parent_class klass) = MutexHeld ->
  exists klass',
    gst_epoch_overlay_class_init (GParamSpec := GParamSpec) klass = Faults Blocked klass' []
    /\ pango_lock (parent_class klass') = MutexHeld
    /\ pango_context (parent_class klass') = pango_context (parent_class klass).
Proof.
  destruct klass as [[fin setp getp md gt lock ctx]].
  simpl. intros ->. eexists. split; [reflexivity|]. split; reflexivity.
Qed.

(** C5. From a class whose rendering-context lock is free, class
    initialization returns with the shared context holding exactly the
    fixed defaults: language "en_US", direction left-to-right, and a font
    description with family "Courier", normal style, variant, weight and
    stretch, and size 50 in Pango units ([50 * PANGO_SCALE]); the rest of
    the context is as it was, and each of the three attributes was set
    exactly once during the run. *)
Theorem class_init_font_defaults (klass : GstEpochOverlayClass ContextRest) :
  pango_lock (parent_class klass) = MutexFree ->
  exists klass' tr,
    gst_epoch_overlay_class_init (GParamSpec := GParamSpec) klass = Returns tt klass' tr
    /\ ctx_language (pango_context (parent_class klass'))
       = pango_language_from_string "en_US"
    /\ ctx_base_dir (pango_context (parent_class klass')) = PANGO_DIRECTION_LTR
    /\ ctx_font_description (pango_context (parent_class klass'))
       = {| fd_family := Some "Courier"%string;
            fd_style := Some PANGO_STYLE_NORMAL;
            fd_variant := Some PANGO_VARIANT_NORMAL;
            fd_weight := Some PANGO_WEIGHT_NORMAL;
            fd_stretch := Some PANGO_STRETCH_NORMAL;
            fd_size := Some (50 * PANGO_SCALE) |}
    /\ ctx_rest (pango_context (parent_class klass'))
       = ctx_rest (pango_context (parent_class klass))
    /\ context_sets AttrLanguage tr = 1%nat
    /\ context_sets AttrBaseDir tr = 1%nat
    /\ context_sets AttrFontDescription tr = 1%nat.
Proof.
  intros Hfree. eexists _, _. rewrite (class_init_run_free klass Hfree).
  split; [reflexivity|]. simpl. repeat split; reflexivity.
Qed.

(** C6. Class initialization has two ways to go.  If the
    rendering-context lock is free on entry, it returns, its trace obeys
    the lock discipline (the lock is taken before the first change of the
    context, every change happens while it is held, and it is released at
    the end), and the lock is free on return.  If the lock is held on
    entry, the run waits in [g_mutex_lock]: its trace is empty, so it has
    neither taken the lock nor changed the context.  Either way it never
    leaves holding the lock. *)
Theorem class_init_lock_discipline (klass : GstEpochOverlayClass ContextRest) :
  match pango_lock (parent_class klass) with
  | MutexFree =>
      exists klass' tr,
        gst_epoch_overlay_class_init (GParamSpec := GParamSpec) klass = Returns tt klass' tr
        /\ pango_lock_monitor false tr = Some false
        /\ head tr = Some (EvMutexLock PangoLock)
        /\ last tr = Some (EvMutexUnlock PangoLock)
        /\ pango_lock (parent_class klass') = MutexFree
  | MutexHeld =>
      exists klass',
        gst_epoch_overlay_class_init (GParamSpec := GParamSpec) klass
        = Faults Blocked klass' []
        /\ pango_context (parent_class klass') = pango_context (parent_class klass)
  end.
Proof.
  destruct (pango_lock (parent_class klass)) eqn:Hlock.
  - eexists _, _. rewrite (class_init_run_free klass Hlock).
    split; [reflexivity|]. repeat split; reflexivity.
  - destruct (class_init_run_held klass Hlock) as (klass' & Hrun & _ & Hctx).
    exists klass'. repeat split; assumption.
Qed.

(** C9. Class initialization is idempotent: from a class whose lock is
    free, a first run returns some class state, and a second run from that
    state returns too (nothing blocks or faults) and leaves the very same
    class state, shared context included. *)
Theorem class_init_idempotent (klass : GstEpochOverlayClass ContextRest) :
  pango_lock (parent_class klass) = MutexFree ->
  exists klass1 tr1 tr2,
    gst_epoch_overlay_class_init (GParamSpec := GParamSpec) klass = Returns tt klass1 tr1
    /\ gst_epoch_overlay_class_init (GParamSpec := GParamSpec) klass1
       = Returns tt klass1 tr2
    /\ (gst_epoch_overlay_class_init (GParamSpec := GParamSpec);;
        gst_epoch_overlay_class_init (GParamSpec := GParamSpec)) klass
       = Returns tt klass1 (tr1 ++ tr2).
Proof.
  intros Hfree. pose proof (class_init_run_free klass Hfree) as Hfirst.
  match type of Hfirst with
  | _ = Returns tt ?k ?tr =>
      assert (Hsecond : gst_epoch_overlay_class_init (GParamSpec := GParamSpec) k
                        = Returns tt k tr)
        by exact (class_init_run_free k eq_refl);
      exists k, tr, tr
  end.
  split; [exact Hfirst|]. split; [exact Hsecond|].
  rewrite run_bind, Hfirst. cbv beta iota. rewrite Hsecond. reflexivity.
Qed.
End ClassInit.

(** ** Instance initialization and the property handlers *)

Section Instance.
Context {GValue GParamSpec : Type}.
Context {GstBaseTextOverlayVAlign GstBaseTextOverlayHAlign OverlayRest : Type}.
Variable GST_BASE_TEXT_OVERLAY_VALIGN_TOP : GstBaseTextOverlayVAlign.
Variable GST_BASE_TEXT_OVERLAY_HALIGN_LEFT : GstBaseTextOverlayHAlign.

(** C7. On every instance, [gst_epoch_overlay_init] returns with the
    vertical alignment set to top and the horizontal alignment set to
    left, and with every other inherited value (the re-render flag, the
    object lock, the remaining fields) as it was. *)
Theorem init_sets_alignment
    (overlay : GstEpochOverlay GstBaseTextOverlayVAlign GstBaseTextOverlayHAlign OverlayRest) :
  exists overlay',
    gst_epoch_overlay_init (GParamSpec := GParamSpec)
      GST_BASE_TEXT_OVERLAY_VALIGN_TOP GST_BASE_TEXT_OVERLAY_HALIGN_LEFT overlay
    = Returns tt overlay' []
    /\ valign (textoverlay overlay') = GST_BASE_TEXT_OVERLAY_VALIGN_TOP
    /\ halign (textoverlay overlay') = GST_BASE_TEXT_OVERLAY_HALIGN_LEFT
    /\ need_render (textoverlay overlay') = need_render (textoverlay overlay)
    /\ object_lock (textoverlay overlay') = object_lock (textoverlay overlay)
    /\ overlay_rest (textoverlay overlay') = overlay_rest (textoverlay overlay).
Proof.
  eexists. split; [reflexivity|]. repeat split; reflexivity.
Qed.

(** C8. For every property identifier, [set_property] and [get_property]
    on an instance whose object lock is free return normally (a warning is
    not a fatal log level), leave the instance (and, for
    [get_property], the value to fill in) exactly as it was, and log one
    message: the invalid-property warning for that identifier, emitted
    under the object lock. *)
Theorem property_handlers_warn_only (prop_id : Z) (value : GValue) (pspec : GParamSpec)
    (overlay : GstEpochOverlay GstBaseTextOverlayVAlign GstBaseTextOverlayHAlign OverlayRest) :
  object_lock (textoverlay overlay) = MutexFree ->
  gst_epoch_overlay_set_property prop_id value pspec overlay
  = Returns tt overlay
      [EvMutexLock ObjectLock;
       EvLog G_LOG_LEVEL_WARNING (InvalidPropertyId prop_id pspec);
       EvMutexUnlock ObjectLock]
  /\ gst_epoch_overlay_get_property prop_id pspec (overlay, value)
     = Returns tt (overlay, value)
         [EvMutexLock ObjectLock;
          EvLog G_LOG_LEVEL_WARNING (InvalidPropertyId prop_id pspec);
          EvMutexUnlock ObjectLock]
  /\ log_level_is_fatal G_LOG_LEVEL_WARNING = false.
Proof.
  destruct overlay as [[lock va ha nr rest]]. simpl. intros ->.
  repeat split; reflexivity.
Qed.
End Instance.

(** ** Further properties of the text provider *)

(** A numeral without leading zero is as long as its value says. *)
Lemma numeral_length (n : Z) (k : nat) (s : string) :
  decimal_numeral_of n s ->
  (1 <= k)%nat -> 10 ^ (Z.of_nat k - 1) <= n < 10 ^ Z.of_nat k ->
  String.length s = k.
Proof.
  intros (Hre & Hlz & Hval) Hk Hn.
  destruct s as [|c t]; [discriminate|]. simpl in Hre.
  assert (Hpos : 0 < 10 ^ (Z.of_nat k - 1)) by (apply Z.pow_pos_nonneg; lia).
  destruct (Ascii.ascii_dec c "0"%char) as [Hc|Hc].
  - rewrite (no_leading_zero_head c t Hlz Hc) in Hval. subst c.
    assert (n = 0) by (rewrite <- Hval; reflexivity). lia.
  - pose proof (numeral_length_bounds c t Hre Hc) as [B1 B2]. rewrite Hval in B1, B2.
    cbn [String.length].
    destruct (Nat.lt_trichotomy (S (String.length t)) k) as [Hlt|[Heq|Hgt]];
      [exfalso|exact Heq|exfalso].
    + assert (10 ^ Z.of_nat (S (String.length t)) <= 10 ^ (Z.of_nat k - 1))
        by (apply Z.pow_le_mono_r; lia). lia.
    + assert (10 ^ Z.of_nat k <= 10 ^ Z.of_nat (String.length t))
        by (apply Z.pow_le_mono_r; lia). lia.
Qed.

Lemma ULLONG_mod_bound (z : Z) : 0 <= z mod ULLONG_MODULUS < ULLONG_MODULUS.
Proof. apply Z.mod_pos_bound. unfold ULLONG_MODULUS. lia. Qed.

Lemma buf_contents_success_numeral (s u : Z) :
  decimal_numeral_of ((s * 1000000 + u) mod ULLONG_MODULUS)
    (buf_contents {| clock_ret := 0; clock_tp := {| tv_sec := s; tv_usec := u |} |}).
Proof.
  rewrite buf_contents_success. apply format_PRIu64_numeral, ULLONG_mod_bound.
Qed.

Lemma buf_contents_length (clock : Clock) :
  (String.length (buf_contents clock) <= PRIu64_MAX_DIGITS)%nat.
Proof.
  unfold buf_contents. destruct (clock_ret clock =? 0).
  - rewrite micro_value. apply format_PRIu64_numeral, ULLONG_mod_bound.
  - vm_compute. lia.
Qed.

Section TextProviderExtras.
Context {GstBuffer GParamSpec : Type}.
Context {GstBaseTextOverlayVAlign GstBaseTextOverlayHAlign OverlayRest : Type}.

(** X1. Whatever the clock answers, the text written to [buf] has at most
    20 characters, so it and its terminating NUL fit in the 256 bytes of
    [buf] with room to spare: the provider never overruns its buffer. *)
Theorem get_text_fits_buffer {allocator : GAllocator} (video_frame : GstBuffer)
    (clock : Clock)
    (w : TextWorld GstBaseTextOverlayVAlign GstBaseTextOverlayHAlign OverlayRest) :
  exists text,
    returned_text (gst_epoch_overlay_get_text (GParamSpec := GParamSpec) video_frame clock w)
    = Some text
    /\ (String.length text <= 20)%nat
    /\ Z.of_nat (String.length text) + 1 < BUF_SIZE.
Proof.
  exists (buf_contents clock). rewrite returned_text_get_text.
  pose proof (buf_contents_length clock) as Hlen. unfold PRIu64_MAX_DIGITS in Hlen.
  split; [reflexivity|]. split; [exact Hlen|]. unfold BUF_SIZE. lia.
Qed.

(** X2. A reader of the overlay can tell a timestamp from the failure
    message: the returned text matches [^[0-9]+$] exactly when
    [gettimeofday] returned 0. *)
Theorem get_text_digits_iff_clock_ok {allocator : GAllocator} (video_frame : GstBuffer)
    (clock : Clock)
    (w : TextWorld GstBaseTextOverlayVAlign GstBaseTextOverlayHAlign OverlayRest) :
  exists text,
    returned_text (gst_epoch_overlay_get_text (GParamSpec := GParamSpec) video_frame clock w)
    = Some text
    /\ (matches_digits_regex text = true <-> clock_ret clock = 0).
Proof.
  exists (buf_contents clock). rewrite returned_text_get_text.
  split; [reflexivity|].
  unfold buf_contents. destruct (Z.eqb_spec (clock_ret clock) 0) as [Hz|Hnz].
  - split; [intros _; exact Hz|intros _].
    rewrite micro_value. apply format_PRIu64_numeral, ULLONG_mod_bound.
  - split; [intros Hm; vm_compute in Hm; discriminate|contradiction].
Qed.

(** X3. Reading the digits back gives the 64-bit microsecond count, so two
    successful readings give the same text exactly when their counts
    agree modulo [2^64]: distinct timestamps are never shown alike. *)
Theorem get_text_round_trip {allocator : GAllocator} (video_frame1 video_frame2 : GstBuffer)
    (w1 w2 : TextWorld GstBaseTextOverlayVAlign GstBaseTextOverlayHAlign OverlayRest)
    (s1 u1 s2 u2 : Z) :
  exists text1 text2,
    returned_text
      (gst_epoch_overlay_get_text (GParamSpec := GParamSpec) video_frame1
         {| clock_ret := 0; clock_tp := {| tv_sec := s1; tv_usec := u1 |} |} w1)
    = Some text1
    /\ returned_text
         (gst_epoch_overlay_get_text (GParamSpec := GParamSpec) video_frame2
            {| clock_ret := 0; clock_tp := {| tv_sec := s2; tv_usec := u2 |} |} w2)
       = Some text2
    /\ decimal_value text1 = (s1 * 1000000 + u1) mod 2 ^ 64
    /\ decimal_value text2 = (s2 * 1000000 + u2) mod 2 ^ 64
    /\ (text1 = text2 <-> (s1 * 1000000 + u1) mod 2 ^ 64 = (s2 * 1000000 + u2) mod 2 ^ 64).
Proof.
  eexists _, _. rewrite !returned_text_get_text.
  split; [reflexivity|]. split; [reflexivity|].
  destruct (buf_contents_success_numeral s1 u1) as (_ & _ & V1).
  destruct (buf_contents_success_numeral s2 u2) as (_ & _ & V2).
  fold ULLONG_MODULUS.
  split; [exact V1|]. split; [exact V2|].
  split.
  - intros E. rewrite <- V1, <- V2, E. reflexivity.
  - intros E. rewrite !buf_contents_success, E. reflexivity.
Qed.

(** X4. The text is as wide as the count has digits: a successful reading
    whose microsecond count lies in [10^(k-1), 10^k) and below [2^64] is
    shown with exactly [k] characters (16 of them for every time from
    September 2001 to November 2286). *)
Theorem get_text_digit_count {allocator : GAllocator} (video_frame : GstBuffer)
    (w : TextWorld GstBaseTextOverlayVAlign GstBaseTextOverlayHAlign OverlayRest)
    (s u : Z) (k : nat) :
  (1 <= k)%nat ->
  10 ^ (Z.of_nat k - 1) <= s * 1000000 + u < 10 ^ Z.of_nat k ->
  s * 1000000 + u < 2 ^ 64 ->
  exists text,
    returned_text
      (gst_epoch_overlay_get_text (GParamSpec := GParamSpec) video_frame
         {| clock_ret := 0; clock_tp := {| tv_sec := s; tv_usec := u |} |} w)
    = Some text
    /\ String.length text = k.
Proof.
  intros Hk Hn Hfit. eexists. rewrite returned_text_get_text.
  split; [reflexivity|].
  assert (Hpos : 0 < 10 ^ (Z.of_nat k - 1)) by (apply Z.pow_pos_nonneg; lia).
  pose proof (buf_contents_success_numeral s u) as Hnum.
  rewrite Z.mod_small in Hnum by (unfold ULLONG_MODULUS; lia).
  exact (numeral_length _ k _ Hnum Hk Hn).
Qed.

(** X5. A clock set before the epoch is not shown with a minus sign: for a
    successful reading whose count is negative (down to [10^19 - 2^64]
    microseconds) the conversion to [unsigned long long] wraps, and the
    text is the 20-digit numeral of the count plus [2^64]. *)
Theorem get_text_before_epoch_wraps {allocator : GAllocator} (video_frame : GstBuffer)
    (w : TextWorld GstBaseTextOverlayVAlign GstBaseTextOverlayHAlign OverlayRest)
    (s u : Z) :
  10 ^ 19 - 2 ^ 64 <= s * 1000000 + u < 0 ->
  exists text,
    returned_text
      (gst_epoch_overlay_get_text (GParamSpec := GParamSpec) video_frame
         {| clock_ret := 0; clock_tp := {| tv_sec := s; tv_usec := u |} |} w)
    = Some text
    /\ decimal_numeral_of (s * 1000000 + u + 2 ^ 64) text
    /\ String.length text = 20%nat.
Proof.
  intros Hn. eexists. rewrite returned_text_get_text.
  split; [reflexivity|].
  pose proof (buf_contents_success_numeral s u) as Hnum.
  assert (Hwrap : (s * 1000000 + u) mod ULLONG_MODULUS = s * 1000000 + u + 2 ^ 64).
  { rewrite <- (Z.mod_add _ 1) by (unfold ULLONG_MODULUS; lia).
    unfold ULLONG_MODULUS. rewrite Z.mod_small; lia. }
  rewrite Hwrap in Hnum. split; [exact Hnum|].
  apply (numeral_length _ 20 _ Hnum); [lia|].
  change (Z.of_nat 20 - 1) with 19. change (Z.of_nat 20) with 20. lia.
Qed.

(** X6. Called once per frame with the returned blocks kept, the provider
    never hands out the same block twice: the pointers are pairwise
    distinct, none is NULL, none was live before, the heap has grown by
    exactly one block per call, every other block is as it was, and at the
    end the block of call [i] still holds the text of call [i]. *)
Theorem get_text_calls_distinct_blocks {allocator : GAllocator}
    (calls : list (GstBuffer * Clock))
    (w : TextWorld GstBaseTextOverlayVAlign GstBaseTextOverlayHAlign OverlayRest) :
  exists ps w',
    get_text_calls (GParamSpec := GParamSpec) calls w = Returns ps w' []
    /\ length ps = length calls
    /\ NoDup ps
    /\ (forall p, p ∈ ps -> p <> NULL /\ tw_heap w !! p = None)
    /\ (forall q, q ∉ ps -> tw_heap w' !! q = tw_heap w !! q)
    /\ size (tw_heap w') = (size (tw_heap w) + length calls)%nat
    /\ (forall (i : nat) p call,
           ps !! i = Some p -> calls !! i = Some call ->
           tw_heap w' !! p = Some (buf_contents (snd call))).
Proof.
  revert w. induction calls as [|[video_frame clock] rest IH]; intros w.
  - exists [], w. split; [reflexivity|]. split; [reflexivity|].
    split; [constructor|]. split; [intros p Hp; inversion Hp|].
    split; [reflexivity|]. split; [simpl; lia|].
    intros i p call Hp. destruct i; discriminate.
  - set (p0 := g_malloc_addr (tw_heap w)).
    set (w1 := {| tw_overlay := set_need_render TRUE (tw_overlay w);
                  tw_heap := <[p0 := buf_contents clock]> (tw_heap w) |}).
    destruct (IH w1) as (ps & w' & Hrun & Hlen & Hnd & Hnew & Hold & Hsize & Hith).
    assert (Hp0 : p0 ∉ ps).
    { intros Hin. destruct (Hnew p0 Hin) as [_ Hnone].
      simpl in Hnone. rewrite lookup_insert_eq in Hnone. discriminate. }
    exists (p0 :: ps), w'.
    split.
    { cbn [get_text_calls]. rewrite run_bind, get_text_run. fold p0 w1.
      rewrite run_bind, Hrun. reflexivity. }
    split; [simpl; congruence|].
    split; [constructor; assumption|].
    split.
    { intros p Hp. apply elem_of_cons in Hp as [->|Hp].
      - split; [apply g_malloc_not_null|apply g_malloc_fresh].
      - destruct (Hnew p Hp) as [Hnull Hnone]. split; [exact Hnull|].
        simpl in Hnone. rewrite lookup_insert_ne in Hnone; [exact Hnone|].
        intros ->. contradiction. }
    split.
    { intros q Hq. apply not_elem_of_cons in Hq as [Hne Hq].
      rewrite (Hold q Hq). simpl. apply lookup_insert_ne. congruence. }
    split.
    { rewrite Hsize. simpl.
      rewrite map_size_insert_None by apply g_malloc_fresh. lia. }
    intros [|i] p call Hp Hcall; simpl in Hp, Hcall.
    + injection Hp as <-. injection Hcall as <-.
      rewrite (Hold p0 Hp0). simpl. apply lookup_insert_eq.
    + exact (Hith i p call Hp Hcall).
Qed.
End TextProviderExtras.

(** ** Further properties of class and instance set-up *)

Section SetupExtras.
Context {GstBuffer GValue GParamSpec ContextRest : Type}.
Context {GstBaseTextOverlayVAlign GstBaseTextOverlayHAlign OverlayRest : Type}.
Variable GST_BASE_TEXT_OVERLAY_VALIGN_TOP : GstBaseTextOverlayVAlign.
Variable GST_BASE_TEXT_OVERLAY_HALIGN_LEFT : GstBaseTextOverlayHAlign.

(** X7. Class initialization installs the element's finalizer, its two
    property handlers, its text provider and its metadata before it asks
    for the rendering-context lock: they are in place at the end of every
    run, also of one that is left waiting for the lock. *)
Theorem class_init_installs_handlers (klass : GstEpochOverlayClass ContextRest) :
  let klass' :=
    parent_class (final_state (gst_epoch_overlay_class_init (GParamSpec := GParamSpec) klass)) in
  finalize klass' = FN_gst_epoch_overlay_finalize
  /\ set_property klass' = FN_gst_epoch_overlay_set_property
  /\ get_property klass' = FN_gst_epoch_overlay_get_property
  /\ get_text klass' = FN_gst_epoch_overlay_get_text
  /\ metadata klass' = Some
       {| md_longname := "Epoch overlay";
          md_classification := "Filter/Editor/Video";
          md_description :=
            "Overlays the current time in microseconds from the unix epoch on a video stream";
          md_author :=
            "Tim-Philipp Müller <tim@centricular.net> with modifications from Konstantinos Sofokleous <kostas@epoch.com>" |}.
Proof.
  destruct klass as [[fin setp getp md gt lock ctx]].
  destruct lock; repeat split; reflexivity.
Qed.

(** X8. Instance initialization and the text provider write different
    fields, so they can run in either order: the overlay, the returned
    pointer and the heap come out the same. *)
Theorem init_get_text_commute {allocator : GAllocator} (video_frame : GstBuffer)
    (clock : Clock)
    (overlay : GstBaseTextOverlay GstBaseTextOverlayVAlign GstBaseTextOverlayHAlign OverlayRest)
    (heap : gmap N string) :
  exists inited p w_a w_b last,
    gst_epoch_overlay_init (GParamSpec := GParamSpec)
      GST_BASE_TEXT_OVERLAY_VALIGN_TOP GST_BASE_TEXT_OVERLAY_HALIGN_LEFT
      {| textoverlay := overlay |}
    = Returns tt inited []
    /\ gst_epoch_overlay_get_text (GParamSpec := GParamSpec) video_frame clock
         {| tw_overlay := textoverlay inited; tw_heap := heap |}
       = Returns p w_a []
    /\ gst_epoch_overlay_get_text (GParamSpec := GParamSpec) video_frame clock
         {| tw_overlay := overlay; tw_heap := heap |}
       = Returns p w_b []
    /\ gst_epoch_overlay_init (GParamSpec := GParamSpec)
         GST_BASE_TEXT_OVERLAY_VALIGN_TOP GST_BASE_TEXT_OVERLAY_HALIGN_LEFT
         {| textoverlay := tw_overlay w_b |}
       = Returns tt last []
    /\ textoverlay last = tw_overlay w_a
    /\ tw_heap w_b = tw_heap w_a.
Proof.
  eexists _, _, _, _, _.
  split; [reflexivity|]. rewrite !get_text_run.
  split; [reflexivity|]. split; [reflexivity|].
  split; [reflexivity|]. split; reflexivity.
Qed.

Lemma set_property_run_free (prop_id : Z) (value : GValue) (pspec : GParamSpec)
    (overlay : GstEpochOverlay GstBaseTextOverlayVAlign GstBaseTextOverlayHAlign OverlayRest) :
  object_lock (textoverlay overlay) = MutexFree ->
  gst_epoch_overlay_set_property prop_id value pspec overlay
  = Returns tt overlay (invalid_property_trace (prop_id, value, pspec)).
Proof.
  destruct overlay as [[lock va ha nr rest]]. simpl. intros ->. reflexivity.
Qed.

(** X9. A property handler called while the object lock is held waits in
    [GST_OBJECT_LOCK]: it has logged no warning and has changed neither the
    instance nor the value by then. *)
Theorem property_handlers_block_on_held_lock (prop_id : Z) (value : GValue)
    (pspec : GParamSpec)
    (overlay : GstEpochOverlay GstBaseTextOverlayVAlign GstBaseTextOverlayHAlign OverlayRest) :
  object_lock (textoverlay overlay) = MutexHeld ->
  gst_epoch_overlay_set_property prop_id value pspec overlay = Faults Blocked overlay []
  /\ gst_epoch_overlay_get_property prop_id pspec (overlay, value)
     = Faults Blocked (overlay, value) [].
Proof.
  destruct overlay as [[lock va ha nr rest]]. simpl. intros ->.
  split; reflexivity.
Qed.

(** X10. The handler releases the object lock before it returns, so calls
    can follow one another: any list of property writes on an instance
    whose lock is free returns with the instance unchanged, and its trace
    is one lock, warning, unlock triple per request, in the order of the
    requests. *)
Theorem set_property_calls_warn_each (requests : list (Z * GValue * GParamSpec))
    (overlay : GstEpochOverlay GstBaseTextOverlayVAlign GstBaseTextOverlayHAlign OverlayRest) :
  object_lock (textoverlay overlay) = MutexFree ->
  set_property_calls requests overlay
  = Returns tt overlay (concat (map invalid_property_trace requests)).
Proof.
  intros Hfree. induction requests as [|[[prop_id value] pspec] rest IH].
  - reflexivity.
  - cbn [set_property_calls]. rewrite run_bind.
    rewrite (set_property_run_free prop_id value pspec overlay Hfree), IH.
    reflexivity.
Qed.
End SetupExtras.

(** ** Further properties: what the code does not read or keep *)

Section MoreExtras.
Context {GstBuffer GParamSpec ContextRest : Type}.
Context {GstBaseTextOverlayVAlign GstBaseTextOverlayHAlign OverlayRest : Type}.


(** X12. However many frames go by, the provider changes one field of the
    overlay: after any list of calls the lock, the alignments and the
    remaining fields are as before, and [need_render] is TRUE if there was
    at least one call and untouched if there was none. *)
Theorem get_text_calls_overlay {allocator : GAllocator} (calls : list (GstBuffer * Clock))
    (w : TextWorld GstBaseTextOverlayVAlign GstBaseTextOverlayHAlign OverlayRest) :
  exists ps w',
    get_text_calls (GParamSpec := GParamSpec) calls w = Returns ps w' []
    /\ object_lock (tw_overlay w') = object_lock (tw_overlay w)
    /\ valign (tw_overlay w') = valign (tw_overlay w)
    /\ halign (tw_overlay w') = halign (tw_overlay w)
    /\ overlay_rest (tw_overlay w') = overlay_rest (tw_overlay w)
    /\ need_render (tw_overlay w')
       = match calls with [] => need_render (tw_overlay w) | _ :: _ => TRUE end.
Proof.
  revert w. induction calls as [|[video_frame clock] rest IH]; intros w.
  - exists [], w. repeat split; reflexivity.
  - set (w1 := {| tw_overlay := set_need_render TRUE (tw_overlay w);
                  tw_heap := <[g_malloc_addr (tw_heap w) := buf_contents clock]>
                               (tw_heap w) |}).
    destruct (IH w1) as (ps & w' & Hrun & Hlock & Hva & Hha & Hrest & Hnr).
    exists (g_malloc_addr (tw_heap w) :: ps), w'.
    split.
    { cbn [get_text_calls]. rewrite run_bind, get_text_run. fold w1.
      rewrite run_bind, Hrun. reflexivity. }
    rewrite Hlock, Hva, Hha, Hrest, Hnr.
    repeat split; try reflexivity. destruct rest; reflexivity.
Qed.

(** X13. When the clock read fails, [tp] was never filled in and the
    provider never looks at it: two failed reads give the same text
    whatever the two return values and whatever [tp] happens to hold. *)
Theorem get_text_failure_ignores_tp {allocator : GAllocator}
    (video_frame1 video_frame2 : GstBuffer) (clock1 clock2 : Clock)
    (w1 w2 : TextWorld GstBaseTextOverlayVAlign GstBaseTextOverlayHAlign OverlayRest) :
  clock_ret clock1 <> 0 -> clock_ret clock2 <> 0 ->
  returned_text (gst_epoch_overlay_get_text (GParamSpec := GParamSpec) video_frame1 clock1 w1)
  = returned_text (gst_epoch_overlay_get_text (GParamSpec := GParamSpec) video_frame2 clock2 w2).
Proof.
  intros H1 H2. rewrite !returned_text_get_text.
  rewrite (buf_contents_failure clock1 H1), (buf_contents_failure clock2 H2). reflexivity.
Qed.
End MoreExtras.

(** ** Worked runs *)

Example format_PRIu64_largest :
  format_PRIu64 (2 ^ 64 - 1) = "18446744073709551615"%string.
Proof. vm_compute. reflexivity. Qed.

(** A clock set one second before the epoch: the product wraps around. *)
Example get_text_before_epoch :
  returned_text
    (gst_epoch_overlay_get_text (GParamSpec := unit) (allocator := first_fit_allocator) tt
       {| clock_ret := 0; clock_tp := {| tv_sec := -1; tv_usec := 0 |} |} Sample.world)
  = Some "18446744073708551616"%string.
Proof. vm_compute. reflexivity. Qed.

(** The sample heap has a live block at address 1, so the copy goes to
    address 2; the overlay now asks for a render. *)
Example get_text_sample_run :
  gst_epoch_overlay_get_text (GParamSpec := unit) (allocator := first_fit_allocator) tt
    {| clock_ret := 0; clock_tp := {| tv_sec := 1; tv_usec := 500000 |} |} Sample.world
  = Returns 2%N
      {| tw_overlay := set_need_render TRUE Sample.overlay;
         tw_heap := <[2%N := "1500000"%string]> {[ 1%N := "live"%string ]} |}
      [].
Proof. vm_compute. reflexivity. Qed.

(** With the lock taken by someone else the run stops before the context:
    the slots are written, the context is as it was. *)
Example class_init_blocked :
  match gst_epoch_overlay_class_init (GParamSpec := unit)
          (in_parent_class (set_pango_lock MutexHeld) Sample.klass) with
  | Faults Blocked klass' [] =>
      get_text (parent_class klass') = FN_gst_epoch_overlay_get_text
      /\ pango_context (parent_class klass') = pango_context (parent_class Sample.klass)
  | _ => False
  end.
Proof. split; reflexivity. Qed.

Example init_sample_run :
  gst_epoch_overlay_init (GParamSpec := unit) 0%nat 0%nat {| textoverlay := Sample.overlay |}
  = Returns tt
      {| textoverlay :=
           {| object_lock := MutexFree; valign := 0%nat; halign := 0%nat;
              need_render := false; overlay_rest := tt |} |}
      [].
Proof. reflexivity. Qed.

(** ** The claims at the sample inputs *)

Lemma get_text_success_decimal_witness :
  0 <= 1 * 1000000 + 500000 < 2 ^ 64
  /\ returned_text
       (gst_epoch_overlay_get_text (GParamSpec := unit) (allocator := first_fit_allocator) tt
          {| clock_ret := 0; clock_tp := {| tv_sec := 1; tv_usec := 500000 |} |} Sample.world)
     = Some "1500000"%string.
Proof.
  split; [lia|].
  exact (proj1 (proj2 (get_text_success_decimal (GParamSpec := unit) tt Sample.world 1 500000))).
Defined.

Lemma get_text_clock_failure_witness :
  exists p w',
    gst_epoch_overlay_get_text (GParamSpec := unit) (allocator := first_fit_allocator) tt
      {| clock_ret := -1; clock_tp := {| tv_sec := 0; tv_usec := 0 |} |} Sample.world
    = Returns p w' []
    /\ p <> NULL
    /\ tw_heap w' !! p = Some "gettimeofday failed"%string.
Proof.
  apply (get_text_clock_failure (GParamSpec := unit) tt
           {| clock_ret := -1; clock_tp := {| tv_sec := 0; tv_usec := 0 |} |} Sample.world).
  simpl. discriminate.
Defined.

Lemma class_init_font_defaults_witness :
  pango_lock (parent_class Sample.klass) = MutexFree
  /\ exists klass' tr,
       gst_epoch_overlay_class_init (GParamSpec := unit) Sample.klass = Returns tt klass' tr
       /\ ctx_language (pango_context (parent_class klass'))
          = pango_language_from_string "en_US"
       /\ ctx_base_dir (pango_context (parent_class klass')) = PANGO_DIRECTION_LTR
       /\ ctx_font_description (pango_context (parent_class klass'))
          = {| fd_family := Some "Courier"%string;
               fd_style := Some PANGO_STYLE_NORMAL;
               fd_variant := Some PANGO_VARIANT_NORMAL;
               fd_weight := Some PANGO_WEIGHT_NORMAL;
               fd_stretch := Some PANGO_STRETCH_NORMAL;
               fd_size := Some (50 * PANGO_SCALE) |}
       /\ ctx_rest (pango_context (parent_class klass'))
          = ctx_rest (pango_context (parent_class Sample.klass))
       /\ context_sets AttrLanguage tr = 1%nat
       /\ context_sets AttrBaseDir tr = 1%nat
       /\ context_sets AttrFontDescription tr = 1%nat.
Proof.
  split; [reflexivity|].
  apply (class_init_font_defaults (GParamSpec := unit) Sample.klass). reflexivity.
Defined.

Lemma class_init_lock_discipline_witness :
  exists klass' tr,
    gst_epoch_overlay_class_init (GParamSpec := unit) Sample.klass = Returns tt klass' tr
    /\ pango_lock_monitor false tr = Some false
    /\ head tr = Some (EvMutexLock PangoLock)
    /\ last tr = Some (EvMutexUnlock PangoLock)
    /\ pango_lock (parent_class klass') = MutexFree.
Proof.
  exact (class_init_lock_discipline (GParamSpec := unit) Sample.klass).
Defined.

Lemma class_init_idempotent_witness :
  pango_lock (parent_class Sample.klass) = MutexFree
  /\ exists klass1 tr1 tr2,
       gst_epoch_overlay_class_init (GParamSpec := unit) Sample.klass = Returns tt klass1 tr1
       /\ gst_epoch_overlay_class_init (GParamSpec := unit) klass1 = Returns tt klass1 tr2
       /\ (gst_epoch_overlay_class_init (GParamSpec := unit);;
           gst_epoch_overlay_class_init (GParamSpec := unit)) Sample.klass
          = Returns tt klass1 (tr1 ++ tr2).
Proof.
  split; [reflexivity|].
  apply (class_init_idempotent (GParamSpec := unit) Sample.klass). reflexivity.
Defined.

Lemma property_handlers_warn_only_witness :
  object_lock Sample.overlay = MutexFree
  /\ gst_epoch_overlay_set_property (GValue := nat) (GParamSpec := unit) 7 0%nat tt
       {| textoverlay := Sample.overlay |}
     = Returns tt {| textoverlay := Sample.overlay |}
         [EvMutexLock ObjectLock;
          EvLog G_LOG_LEVEL_WARNING (InvalidPropertyId 7 tt);
          EvMutexUnlock ObjectLock].
Proof.
  split; [reflexivity|].
  apply (property_handlers_warn_only (GParamSpec := unit) 7 0%nat tt
           {| textoverlay := Sample.overlay |}).
  reflexivity.
Defined.

(** ** The further properties at the sample inputs *)

(** 2023-11-14T22:13:20Z, on the second. *)
Lemma get_text_digit_count_witness :
  exists text,
    returned_text
      (gst_epoch_overlay_get_text (GParamSpec := unit) (allocator := first_fit_allocator) tt
         {| clock_ret := 0; clock_tp := {| tv_sec := 1700000000; tv_usec := 0 |} |}
         Sample.world)
    = Some text
    /\ String.length text = 16%nat.
Proof.
  apply (get_text_digit_count (GParamSpec := unit) tt Sample.world 1700000000 0 16).
  - lia.
  - change (Z.of_nat 16 - 1) with 15. change (Z.of_nat 16) with 16. lia.
  - lia.
Defined.

Lemma get_text_before_epoch_wraps_witness :
  exists text,
    returned_text
      (gst_epoch_overlay_get_text (GParamSpec := unit) (allocator := first_fit_allocator) tt
         {| clock_ret := 0; clock_tp := {| tv_sec := -1; tv_usec := 0 |} |} Sample.world)
    = Some text
    /\ decimal_numeral_of (-1 * 1000000 + 0 + 2 ^ 64) text
    /\ String.length text = 20%nat.
Proof.
  apply (get_text_before_epoch_wraps (GParamSpec := unit) tt Sample.world (-1) 0). lia.
Defined.

Lemma property_handlers_block_on_held_lock_witness :
  gst_epoch_overlay_set_property (GValue := nat) (GParamSpec := unit) 7 0%nat tt
    {| textoverlay := set_object_lock MutexHeld Sample.overlay |}
  = Faults Blocked {| textoverlay := set_object_lock MutexHeld Sample.overlay |} []
  /\ gst_epoch_overlay_get_property (GParamSpec := unit) 7 tt
       ({| textoverlay := set_object_lock MutexHeld Sample.overlay |}, 0%nat)
     = Faults Blocked ({| textoverlay := set_object_lock MutexHeld Sample.overlay |}, 0%nat) [].
Proof.
  apply (property_handlers_block_on_held_lock (GParamSpec := unit) 7 0%nat tt
           {| textoverlay := set_object_lock MutexHeld Sample.overlay |}).
  reflexivity.
Defined.

Lemma set_property_calls_warn_each_witness :
  set_property_calls (GParamSpec := unit) [(1, 0%nat, tt); (2, 5%nat, tt)]
    {| textoverlay := Sample.overlay |}
  = Returns tt {| textoverlay := Sample.overlay |}
      (concat (map invalid_property_trace [(1, 0%nat, tt); (2, 5%nat, tt)])).
Proof.
  apply (set_property_calls_warn_each (GParamSpec := unit) [(1, 0%nat, tt); (2, 5%nat, tt)]
           {| textoverlay := Sample.overlay |}).
  reflexivity.
Defined.


Lemma get_text_failure_ignores_tp_witness :
  returned_text
    (gst_epoch_overlay_get_text (GParamSpec := unit) (allocator := first_fit_allocator) tt
       {| clock_ret := -1; clock_tp := {| tv_sec := 0; tv_usec := 0 |} |} Sample.world)
  = returned_text
      (gst_epoch_overlay_get_text (GParamSpec := unit) (allocator := first_fit_allocator) tt
         {| clock_ret := 22; clock_tp := {| tv_sec := 12345; tv_usec := -7 |} |} Sample.world).
Proof.
  apply (get_text_failure_ignores_tp (GParamSpec := unit) tt tt
           {| clock_ret := -1; clock_tp := {| tv_sec := 0; tv_usec := 0 |} |}
           {| clock_ret := 22; clock_tp := {| tv_sec := 12345; tv_usec := -7 |} |}
           Sample.world Sample.world); simpl; discriminate.
Defined.
